(** * Spillway discharge calculator: the lookup, the formula and the session totals

    A shallow embedding of [spillway_discharge.py] (the Streamlit application)
    and of its two older variants, [spillway_discharge_old.py] and
    [spillway_discharge copy.py].

    Numbers.  The gate count is a Python [int] and is a [Z] here.  Durations,
    heights, rates and discharges are Python/NumPy floats; a float is modelled
    by the rational [Q] it denotes, compared with [Qeq] ([==]).  The products,
    quotients and sums of the discharge and of the totals are carried out
    exactly: their rounding moves a result in its last place only.  The
    subtraction of the nearest-height lookup is rounded to binary64 as the
    program rounds it, because the row chosen depends on it.  No number is a
    NaN, and gate counts are in the range of a float.

    Tables.  A [DataFrame] with the columns [height] and [cfs], in this
    order, and the default [RangeIndex] is the list of its rows; the index
    label of a row is its position.  No cell is missing. *)

From Stdlib Require Import String ZArith QArith Qabs List Bool Lia Lqa.
Import ListNotations.
Local Open Scope Q_scope.

(** ** Exceptions *)

Inductive exn : Type :=
| ValueError (msg : string)
| KeyError (label : nat)
| ZeroDivisionError
| OSError (msg : string).

Inductive result (A : Type) : Type :=
| Ok (a : A)
| Raise (e : exn).
Arguments Ok {A} a.
Arguments Raise {A} e.

Definition bind {A B : Type} (r : result A) (k : A -> result B) : result B :=
  match r with
  | Ok a => k a
  | Raise e => Raise e
  end.

Notation "x <- r ;; k" := (bind r (fun x => k))
  (at level 61, r at next level, right associativity).

(** Python's [a / b] on numbers. *)
Definition truediv (a b : Q) : result Q :=
  if Qeq_bool b 0 then Raise ZeroDivisionError else Ok (a / b).

(** ** The reference table *)

Record row : Type := { height : Q; cfs : Q }.

Definition DataFrame : Type := list row.

(** [df[df['height'] == h]]: the rows whose height equals [h], in table order. *)
Definition select_height (h : Q) (df : DataFrame) : DataFrame :=
  filter (fun r => Qeq_bool (height r) h) df.

(** [Series.idxmin()]: the label of the first occurrence of the minimum;
    [ValueError] on an empty series.  [scan] walks the series keeping the
    best label and value seen so far; a later value replaces the best one
    only when it is strictly smaller. *)
Fixpoint scan (best_i : nat) (best : Q) (i : nat) (s : list Q) : nat :=
  match s with
  | [] => best_i
  | x :: s' =>
      if Qle_bool best x then scan best_i best (S i) s'
      else scan i x (S i) s'
  end.

Definition idxmin (s : list Q) : result nat :=
  match s with
  | [] => Raise (ValueError "attempt to get argmin of an empty sequence")
  | x :: s' => Ok (scan 0%nat x 1%nat s')
  end.

(** [df.loc[label, column]] *)
Definition loc (df : DataFrame) (label : nat) (column : row -> Q) : result Q :=
  match nth_error df label with
  | Some r => Ok (column r)
  | None => Raise (KeyError label)
  end.

(** *** binary64 subtraction

    [ilog2 n d] is the floor of the binary logarithm of [n / d], for positive
    [n] and [d]. *)
Definition ilog2 (n d : Z) : Z :=
  let e := (Z.log2 n - Z.log2 d)%Z in
  if (n * 2 ^ Z.max 0 (- e) <? d * 2 ^ Z.max 0 e)%Z then (e - 1)%Z else e.

(** [num / den] rounded to the nearest integer, a tie to the even one. *)
Definition round_half_even (num den : Z) : Z :=
  let q := (num / den)%Z in
  match (2 * (num mod den) ?= den)%Z with
  | Lt => q
  | Gt => (q + 1)%Z
  | Eq => if Z.even q then q else (q + 1)%Z
  end.

(** The binary64 number nearest to [x], a tie to the even significand: 53
    significant bits, the last place never below 2^-1074.  A magnitude that
    rounds to 2^1024 or more is infinite in the program; it is kept as 2^1024,
    which compares with every float, and with itself, as infinity does. *)
Definition round64 (x : Q) : Q :=
  let n := Z.abs (Qnum x) in
  let d := Zpos (Qden x) in
  if (n =? 0)%Z then 0
  else
    let s := Z.max (ilog2 n d - 52) (-1074) in
    let m := round_half_even (n * 2 ^ Z.max 0 (- s)) (d * 2 ^ Z.max 0 s) in
    let magnitude :=
      if (2 ^ 1024 <=? m * 2 ^ s)%Z then inject_Z (2 ^ 1024)
      else Qmake (m * 2 ^ Z.max 0 s) (Z.to_pos (2 ^ Z.max 0 (- s))) in
    inject_Z (Z.sgn (Qnum x)) * magnitude.

(** [a - b] on floats. *)
Definition float_sub (a b : Q) : Q := round64 (a - b).

(** [(df['height'] - h).abs()] *)
Definition abs_diff (df : DataFrame) (h : Q) : list Q :=
  map (fun r => Qabs (float_sub (height r) h)) df.

(** [create_sample_csv]: the built-in table it returns (writing it to the file
    is the effect assumed to succeed, see [csv_source]). *)
Definition sample_data : list Q * list Q :=
  ([0.50; 1.00; 1.50; 2.00; 2.50; 3.00],
   [9000; 18000; 29000; 38000; 49000; 58000]).

Definition create_sample_csv : DataFrame :=
  map (fun p => {| height := fst p; cfs := snd p |})
      (combine (fst sample_data) (snd sample_data)).

(** [get_cfs_for_height(height, discharge_data)] *)
Definition get_cfs_for_height (h : Q) (discharge_data : DataFrame)
  : result (Q * bool) :=
  match select_height h discharge_data with
  | r :: _ => Ok (cfs r, true)
  | [] =>
      closest_idx <- idxmin (abs_diff discharge_data h) ;;
      closest_height <- loc discharge_data closest_idx height ;;
      closest_cfs <- loc discharge_data closest_idx cfs ;;
      Ok (closest_cfs, false)
  end.

(** ** One calculation *)

Record calculation : Type := {
  timestamp : string;
  num_gates : Z;
  duration : Q;
  gate_height : Q;
  cfs_value : Q;
  discharge : Q;
  exact_match : bool
}.

(** [(num_gates * duration * cfs_value) / (16 * 24)].  The gate count is
    converted to a float by the first product; the widgets allow 1 to 50, and
    a count beyond the range of a float is outside the model. *)
Definition discharge_formula (gates : Z) (hours rate : Q) : result Q :=
  truediv (inject_Z gates * hours * rate) (inject_Z (16 * 24)).

(** [calculate_discharge(num_gates, duration, gate_height, discharge_data)];
    [now] is the reading of the clock. *)
Definition calculate_discharge (now : string) (gates : Z) (hours h : Q)
    (discharge_data : DataFrame) : result calculation :=
  found <- get_cfs_for_height h discharge_data ;;
  d <- discharge_formula gates hours (fst found) ;;
  Ok {| timestamp := now;
        num_gates := gates;
        duration := hours;
        gate_height := h;
        cfs_value := fst found;
        discharge := d;
        exact_match := snd found |}.

(** ** What a run shows

    A message is the sequence of the literal and interpolated parts of its
    f-string; an interpolated number keeps its value and its format
    specification.  Static page furniture (title, headers, rules, columns,
    the footer) carries no data and is left out, and so are the emoji that
    open some messages and the text of the exception in the error line of
    [load_discharge_data]. *)

Inductive piece : Type :=
| Lit (s : string)
| Num (v : Q) (spec : string)
| Len (n : nat).

Definition message : Type := list piece.

Inductive element : Type :=
| st_warning (msg : message)
| st_error (msg : message)
| st_success (msg : message)
| st_info (msg : message)
| st_text (msg : message)
| st_metric (label : string) (value : message)
| st_dataframe (rows : list calculation)
| st_download_button (rows : list calculation)
| st_exception (e : exn).

(** A message names a number when one of its interpolated parts has that
    value. *)
Definition names (x : Q) (msg : message) : bool :=
  existsb (fun p => match p with Num v _ => Qeq_bool v x | _ => false end) msg.

(** The elements that display the accumulator. *)
Definition shows_totals (e : element) : bool :=
  match e with
  | st_metric _ _ | st_dataframe _ | st_download_button _ => true
  | _ => false
  end.

(** ** Session state *)

Record session_state : Type := {
  calculations : list calculation;
  total_discharge : Q;
  discharge_data : option DataFrame
}.

(** [initialize_session_state] on a fresh session.  On every later run the
    three keys are present and it changes nothing. *)
Definition initialize_session_state : session_state :=
  {| calculations := []; total_discharge := 0.0; discharge_data := None |}.

(** [st.session_state.discharge_data = discharge_data] *)
Definition set_discharge_data (df : DataFrame) (s : session_state)
  : session_state :=
  {| calculations := calculations s;
     total_discharge := total_discharge s;
     discharge_data := Some df |}.

(** [st.session_state.calculations.append(result)] *)
Definition append_calculation (r : calculation) (s : session_state)
  : session_state :=
  {| calculations := calculations s ++ [r];
     total_discharge := total_discharge s;
     discharge_data := discharge_data s |}.

(** [st.session_state.total_discharge += result['discharge']] *)
Definition add_to_total (r : calculation) (s : session_state)
  : session_state :=
  {| calculations := calculations s;
     total_discharge := total_discharge s + discharge r;
     discharge_data := discharge_data s |}.

(** [st.session_state.calculations = []] *)
Definition reset_calculations (s : session_state) : session_state :=
  {| calculations := [];
     total_discharge := total_discharge s;
     discharge_data := discharge_data s |}.

(** [st.session_state.total_discharge = 0.0] *)
Definition reset_total (s : session_state) : session_state :=
  {| calculations := calculations s;
     total_discharge := 0.0;
     discharge_data := discharge_data s |}.

(** Lines 182 and 183 together: append the result, then add its discharge. *)
Definition accumulate (r : calculation) (s : session_state) : session_state :=
  add_to_total r (append_calculation r s).

(** Lines 194 and 195 together. *)
Definition clear_all (s : session_state) : session_state :=
  reset_total (reset_calculations s).

(** [st.session_state.total_discharge / len(st.session_state.calculations)] *)
Definition average_discharge (s : session_state) : result Q :=
  truediv (total_discharge s)
          (inject_Z (Z.of_nat (length (calculations s)))).

(** ** Scripts

    A script run threads the session state and the elements shown so far; an
    uncaught exception stops it, keeping both as they were at that point. *)

Record page : Type := { session : session_state; shown : list element }.

Definition script (A : Type) : Type := page -> result A * page.

Definition ret {A : Type} (a : A) : script A := fun p => (Ok a, p).

Definition seq {A B : Type} (c : script A) (k : A -> script B) : script B :=
  fun p =>
    match c p with
    | (Ok a, p') => k a p'
    | (Raise e, p') => (Raise e, p')
    end.

Definition lift {A : Type} (r : result A) : script A := fun p => (r, p).

Definition emit (e : element) : script unit :=
  fun p => (Ok tt, {| session := session p; shown := shown p ++ [e] |}).

Definition get : script session_state := fun p => (Ok (session p), p).

Definition modify (f : session_state -> session_state) : script unit :=
  fun p => (Ok tt, {| session := f (session p); shown := shown p |}).

Notation "x <~ c ;; k" := (seq c (fun x => k))
  (at level 61, c at next level, right associativity).
Notation "c ;;; k" := (seq c (fun _ => k))
  (at level 61, right associativity).

(** ** The application *)

(** What [load_discharge_data] finds, for the runs in which it returns: the
    file is missing, or reading it fails, and the sample file is then written;
    or the file is read into a frame with the two numeric columns.  A run in
    which writing the sample file fails is stopped inside the load and is not
    among these. *)
Inductive csv_source : Type :=
| NotFound
| Unreadable
| Contents (df : DataFrame).

Definition csv_filename : string := "discharge_list.csv".

(** [load_discharge_data]: the file's frame, or the sample table when the file
    is missing or cannot be read. *)
Definition load_discharge_data (csv : csv_source) : script DataFrame :=
  match csv with
  | NotFound =>
      emit (st_warning [Lit "CSV file '"; Lit csv_filename;
                        Lit "' not found. Creating sample file..."]) ;;;
      ret create_sample_csv
  | Unreadable =>
      emit (st_error [Lit "Error loading CSV file: "]) ;;;
      ret create_sample_csv
  | Contents df => ret df
  end.

(** The table a run works with. *)
Definition loaded (csv : csv_source) : DataFrame :=
  match csv with
  | Contents df => df
  | NotFound | Unreadable => create_sample_csv
  end.

(** *** The load with its file accesses

    [load_from_disk] is [load_discharge_data] with the file system made
    explicit: what [os.path.exists] and [pd.read_csv] find, and whether
    [df.to_csv] in [create_sample_csv] can write the file.  [csv_source]
    above is what it comes to in the runs in which it returns. *)

Inductive disk_file : Type :=
| FileMissing
| FileBroken (e : exn)
| FileHolds (df : DataFrame).

(** [try: c except Exception as e: handler(e)]; what was shown before the
    exception stays on the page. *)
Definition catch {A : Type} (c : script A) (handler : exn -> script A)
  : script A :=
  fun p =>
    match c p with
    | (Ok a, p') => (Ok a, p')
    | (Raise e, p') => handler e p'
    end.

(** [create_sample_csv] with its write: [to_csv] raises when the file cannot
    be written. *)
Definition write_sample_csv (writable : bool) : script DataFrame :=
  if writable then ret create_sample_csv
  else lift (Raise (OSError "cannot write discharge_list.csv")).

Definition load_from_disk (file : disk_file) (writable : bool)
  : script DataFrame :=
  catch
    (match file with
     | FileMissing =>
         emit (st_warning [Lit "CSV file '"; Lit csv_filename;
                           Lit "' not found. Creating sample file..."]) ;;;
         write_sample_csv writable
     | FileBroken e => lift (Raise e)
     | FileHolds df => ret df
     end)
    (fun e =>
       emit (st_error [Lit "Error loading CSV file: "]) ;;;
       write_sample_csv writable).

(** The [csv_source] a file comes to when the load returns. *)
Definition found_on_disk (file : disk_file) : csv_source :=
  match file with
  | FileMissing => NotFound
  | FileBroken _ => Unreadable
  | FileHolds df => Contents df
  end.

Inductive button : Type := CalculateButton | ClearButton.

(** The widgets' values on one run; at most one button reports a click. *)
Record inputs : Type := {
  in_num_gates : Z;
  in_duration : Q;
  in_gate_height : Q;
  clicked : option button
}.

Definition pressed (b : button) (ui : inputs) : bool :=
  match clicked ui, b with
  | Some CalculateButton, CalculateButton => true
  | Some ClearButton, ClearButton => true
  | _, _ => false
  end.


(** The body of the Calculate button. *)
Definition on_calculate (now : string) (ui : inputs) (df : DataFrame)
  : script unit :=
  r <~ lift (calculate_discharge now (in_num_gates ui) (in_duration ui)
               (in_gate_height ui) df) ;;
  modify (append_calculation r) ;;;
  modify (add_to_total r) ;;;
  emit (st_success [Lit "Calculation completed! Individual discharge: ";
                    Num (discharge r) ",.2f"]) ;;;
  if negb (exact_match r) then
    closest_idx <~ lift (idxmin (abs_diff df (in_gate_height ui))) ;;
    closest_height <~ lift (loc df closest_idx height) ;;
    emit (st_warning [Lit "Using closest available height: ";
                      Num closest_height "";
                      Lit " (CFS: "; Num (cfs_value r) ","; Lit ")"])
  else ret tt.

(** The body of the Clear button. *)
Definition on_clear : script unit :=
  modify reset_calculations ;;;
  modify reset_total ;;;
  emit (st_success [Lit "All calculations cleared!"]).

(** The results section. *)
Definition show_results : script unit :=
  s <~ get ;;
  if (0 <? length (calculations s))%nat then
    emit (st_metric "Total Calculations" [Len (length (calculations s))]) ;;;
    emit (st_metric "Total Discharge" [Num (total_discharge s) ",.2f"]) ;;;
    avg_discharge <~ lift (average_discharge s) ;;
    emit (st_metric "Average Discharge" [Num avg_discharge ",.2f"]) ;;;
    emit (st_dataframe (calculations s)) ;;;
    emit (st_download_button (calculations s))
  else
    emit (st_info [Lit "Enter parameters above and click 'Calculate Discharge' to see results!"]).

Definition main (now : string) (csv : csv_source) (ui : inputs) : script unit :=
  df <~ load_discharge_data csv ;;
  modify (set_discharge_data df) ;;;
  (if pressed CalculateButton ui then on_calculate now ui df else ret tt) ;;;
  (if pressed ClearButton ui then on_clear else ret tt) ;;;
  show_results.

(** One run of the script on a session: the session afterwards and the page
    shown, with the exception box when the script was stopped. *)
Definition rerun (now : string) (csv : csv_source) (ui : inputs)
    (s : session_state) : session_state * list element :=
  match main now csv ui {| session := s; shown := [] |} with
  | (Ok _, p) => (session p, shown p)
  | (Raise e, p) => (session p, shown p ++ [st_exception e])
  end.

(** A session is a sequence of runs, each with its clock, file and widget
    values. *)
Definition event : Type := (string * csv_source * inputs)%type.

Definition play (evs : list event) (s : session_state) : session_state :=
  fold_left (fun s ev => fst (rerun (fst (fst ev)) (snd (fst ev)) (snd ev) s))
            evs s.

(** The sum of the discharges of a list of calculations. *)
Definition sum_discharge (l : list calculation) : Q :=
  fold_right (fun r acc => discharge r + acc) 0 l.

(** The accumulator invariant: the running total is the sum over the entries. *)
Definition consistent (s : session_state) : Prop :=
  total_discharge s == sum_discharge (calculations s).

(** ** The older variants

    Both read the table once at module level and look a height up by exact
    match only; [rate_data.iloc[0, 1]] is the second column of the first
    matching row, which is [cfs] for a file with the columns in the order
    height, cfs, as [DataFrame] has them. *)

(** [spillway_discharge_old.py] *)
Module Old.

(** One entry of [st.session_state.calculations] after its widgets ran. *)
Record calc : Type := {
  num_of_gates : Z;
  duration : Q;
  gate_height : Q
}.

(** The rate and the line of text chosen for a height. *)
Definition lookup (h : Q) (df : DataFrame) : Q * element :=
  match select_height h df with
  | r :: _ =>
      (cfs r,
       st_text [Lit "The CFS rate for a gate height of "; Num h "";
                Lit " is "; Num (cfs r) ".0f"; Lit " CFS."])
  | [] =>
      (0, st_text [Lit "No data available for the selected gate height."])
  end.

(** [(calc['num_of_gates'] * calc['duration'] * cfs_rate) / 384] *)
Definition spd_formula (gates : Z) (hours rate : Q) : result Q :=
  truediv (inject_Z gates * hours * rate) 384.

(** The block shown for calculation [i] (counted from 0): the rate found,
    the SPD and the two elements. *)
Definition show_calculation (i : nat) (c : calc) (df : DataFrame)
  : result (Q * Q * list element) :=
  let found := lookup (gate_height c) df in
  spd <- spd_formula (num_of_gates c) (duration c) (fst found) ;;
  Ok (fst found, spd,
      [snd found;
       st_success [Lit "SPD rate for Calculation "; Len (i + 1); Lit ": ";
                   Num spd ",.6f"]]).

(** [total_spd]: [sum] over the calculations whose height has a row, adding
    from the left, starting at 0. *)
Fixpoint sum_spd (acc : Q) (calcs : list calc) (df : DataFrame) : result Q :=
  match calcs with
  | [] => Ok acc
  | c :: rest =>
      match select_height (gate_height c) df with
      | r :: _ =>
          spd <- spd_formula (num_of_gates c) (duration c) (cfs r) ;;
          sum_spd (acc + spd) rest df
      | [] => sum_spd acc rest df
      end
  end.

Definition total_spd (calcs : list calc) (df : DataFrame) : result Q :=
  sum_spd 0 calcs df.

End Old.

(** [spillway_discharge copy.py] *)
Module Copy.

Definition lookup (h : Q) (df : DataFrame) : Q * element :=
  match select_height h df with
  | r :: _ =>
      (cfs r,
       st_text [Lit "The CFS rate for a gate height of "; Num h "";
                Lit " is "; Num (cfs r) ".0f"; Lit " CFS."])
  | [] =>
      (0, st_text [Lit "No data available for the selected gate height."])
  end.

(** [(num_of_gates * duration * cfs_rate) / (16*24)] *)
Definition spd_formula (gates : Z) (hours rate : Q) : result Q :=
  truediv (inject_Z gates * hours * rate) (inject_Z (16 * 24)).

(** The whole page: the rate found, [spd_1] and the two elements. *)
Definition show_entry (gates : Z) (hours h : Q) (df : DataFrame)
  : result (Q * Q * list element) :=
  let found := lookup h df in
  spd_1 <- spd_formula gates hours (fst found) ;;
  Ok (fst found, spd_1,
      [snd found;
       st_success [Lit "SPD rate for entry 1: "; Num spd_1 ",.6f"]]).

End Copy.

(** ** The session of the old variant

    [spillway_discharge_old.py] keeps a list of calculations in the session;
    each is a dict whose three values start as [None] and are overwritten by
    the widgets on every run. *)
Module OldSession.

Record entry : Type := {
  num_of_gates : option Z;
  duration : option Q;
  gate_height : option Q
}.

Definition blank : entry :=
  {| num_of_gates := None; duration := None; gate_height := None |}.


(** [add_calculation()] *)
Definition add_calculation (calcs : list entry) : list entry :=
  calcs ++ [blank].

(** The three assignments from the widgets of calculation [i]; [w] holds the
    values the widgets return on this run. *)
Definition set_fields (w : Old.calc) (e : entry) : entry :=
  {| num_of_gates := Some (Old.num_of_gates w);
     duration := Some (Old.duration w);
     gate_height := Some (Old.gate_height w) |}.

(** The test that the three values are not [None]. *)
Definition complete (e : entry) : option Old.calc :=
  match num_of_gates e, duration e, gate_height e with
  | Some g, Some d, Some h =>
      Some {| Old.num_of_gates := g; Old.duration := d; Old.gate_height := h |}
  | _, _, _ => None
  end.

(** What the loop shows for calculation [i] once its values are set. *)
Definition show_one (i : nat) (e : entry) (df : DataFrame)
  : result (list element) :=
  match complete e with
  | Some c =>
      shown <- Old.show_calculation i c df ;;
      Ok (snd shown)
  | None => Ok [st_warning [Lit "Please enter all values for the calculation."]]
  end.

(** The [for i, calc in enumerate(...)] loop from index [i] on: the entries
    as the widgets leave them and the elements shown. *)
Fixpoint loop (i : nat) (widgets : nat -> Old.calc) (calcs : list entry)
    (df : DataFrame) : result (list entry * list element) :=
  match calcs with
  | [] => Ok ([], [])
  | e :: rest =>
      let e' := set_fields (widgets i) e in
      one <- show_one i e' df ;;
      more <- loop (S i) widgets rest df ;;
      Ok (e' :: fst more, one ++ snd more)
  end.

(** The entries that pass the [is not None] tests of [total_spd]. *)
Fixpoint completed (calcs : list entry) : list Old.calc :=
  match calcs with
  | [] => []
  | e :: rest =>
      match complete e with
      | Some c => c :: completed rest
      | None => completed rest
      end
  end.

(** One run of the script: the loop, the Add button (present only while
    fewer than 16 calculations exist), then the total.  The result is the
    session's list, the elements shown and the total of the header. *)
Definition run (widgets : nat -> Old.calc) (add_clicked : bool)
    (calcs : list entry) (df : DataFrame)
  : result (list entry * list element * Q) :=
  looped <- loop 0 widgets calcs df ;;
  let calcs' :=
    if (length (fst looped) <? 16)%nat && add_clicked
    then add_calculation (fst looped)
    else fst looped in
  total_spd <- Old.total_spd (completed calcs') df ;;
  Ok (calcs', snd looped, total_spd).

(** A session: one run after the other, each with its widget values, its
    button and the table read by that run. *)
Definition run_event : Type := ((nat -> Old.calc) * bool * DataFrame)%type.

Definition play (evs : list run_event) (calcs : list entry) : list entry :=
  fold_left
    (fun calcs ev =>
       match run (fst (fst ev)) (snd (fst ev)) calcs (snd ev) with
       | Ok out => fst (fst out)
       | Raise _ => calcs
       end)
    evs calcs.

End OldSession.

(** The numbers interpolated into the success lines of a page, in order. *)
Definition success_values (page : list element) : list Q :=
  flat_map
    (fun e =>
       match e with
       | st_success msg =>
           flat_map (fun p => match p with Num v _ => [v] | _ => [] end) msg
       | _ => []
       end)
    page.

(** The sum of a list of numbers. *)
Definition Qsum (l : list Q) : Q := fold_right Qplus 0 l.

(** ** Proof steps for scripts *)

Ltac run_script :=
  unfold seq, lift, emit, modify, get, ret; simpl.

Ltac split_match :=
  match goal with
  | |- context [match ?x with _ => _ end] => destruct x eqn:?
  end.

(** * Properties *)

(** ** The formula *)

Lemma discharge_formula_value (gates : Z) (hours rate : Q) :
  discharge_formula gates hours rate = Ok (inject_Z gates * hours * rate / 384).
Proof. reflexivity. Qed.

Lemma calculate_discharge_found (now : string) (gates : Z) (hours h : Q)
    (df : DataFrame) (rate : Q) (exact : bool) :
  get_cfs_for_height h df = Ok (rate, exact) ->
  calculate_discharge now gates hours h df =
    Ok {| timestamp := now; num_gates := gates; duration := hours;
          gate_height := h; cfs_value := rate;
          discharge := inject_Z gates * hours * rate / 384;
          exact_match := exact |}.
Proof.
  intros Hfound. unfold calculate_discharge. rewrite Hfound. reflexivity.
Qed.

Lemma calculate_discharge_raises (now : string) (gates : Z) (hours h : Q)
    (df : DataFrame) (e : exn) :
  get_cfs_for_height h df = Raise e ->
  calculate_discharge now gates hours h df = Raise e.
Proof.
  intros Hfound. unfold calculate_discharge. rewrite Hfound. reflexivity.
Qed.

(** C1: whenever the height resolves to a rate, [calculate_discharge] returns
    an entry carrying that rate whose discharge is
    (gate count x duration x rate) / 384; in particular 2 gates for 3 hours at
    the rate 9000 (height 0.50 of the built-in table) give 140.625. *)
Theorem calculate_discharge_formula :
  (forall (now : string) (gates : Z) (hours h : Q) (df : DataFrame)
          (rate : Q) (exact : bool),
      get_cfs_for_height h df = Ok (rate, exact) ->
      exists r,
        calculate_discharge now gates hours h df = Ok r /\
        cfs_value r = rate /\
        discharge r == inject_Z gates * hours * rate / 384) /\
  (forall now : string,
      exists r,
        calculate_discharge now 2 3 0.50 create_sample_csv = Ok r /\
        cfs_value r = 9000 /\
        discharge r == 140.625).
Proof.
  split.
  - intros now gates hours h df rate exact Hfound.
    eexists. split; [apply (calculate_discharge_found _ _ _ _ _ _ _ Hfound)|].
    split; reflexivity.
  - intros now. eexists. split; [reflexivity|]. split; reflexivity.
Qed.

Lemma calculate_discharge_formula_witness :
  exists r,
    calculate_discharge "2025-01-01 00:00:00" 2 3 0.50 create_sample_csv = Ok r /\
    cfs_value r = 9000 /\
    discharge r == inject_Z 2 * 3 * 9000 / 384.
Proof.
  apply (proj1 calculate_discharge_formula
           "2025-01-01 00:00:00"%string 2%Z 3 0.50 create_sample_csv 9000 true).
  reflexivity.
Defined.

(** C9: the three variants compute the same discharge from the same gate
    count, duration and rate: dividing by 16 x 24 (the application and the
    copy) and dividing by the literal 384 (the old variant) give the same
    result, the product over 384. *)
Theorem formulas_agree (gates : Z) (hours rate : Q) :
  discharge_formula gates hours rate = Old.spd_formula gates hours rate /\
  Copy.spd_formula gates hours rate = Old.spd_formula gates hours rate /\
  Old.spd_formula gates hours rate = Ok (inject_Z gates * hours * rate / 384).
Proof. repeat split. Qed.

(** ** Exact lookup *)

Lemma select_height_none (h : Q) (df : DataFrame) :
  (forall r, In r df -> ~ height r == h) -> select_height h df = [].
Proof.
  induction df as [|r df IH]; intros Hno; [reflexivity|].
  unfold select_height in *. simpl.
  destruct (Qeq_bool (height r) h) eqn:E.
  - apply Qeq_bool_eq in E. exfalso. apply (Hno r); [left; reflexivity|exact E].
  - apply IH. intros r' Hin. apply Hno. right. exact Hin.
Qed.

Lemma select_height_first (h : Q) (before : DataFrame) (r : row)
    (after : DataFrame) :
  (forall r', In r' before -> ~ height r' == h) ->
  height r == h ->
  select_height h (before ++ r :: after) = r :: select_height h after.
Proof.
  intros Hno Hr. unfold select_height. rewrite filter_app.
  fold (select_height h before). rewrite (select_height_none h before Hno).
  simpl. rewrite (Qeq_eq_bool _ _ Hr). reflexivity.
Qed.

(** C10: when two or more rows have the requested height, the lookup returns
    the rate of the first of them in table order, as an exact match; the old
    variants pick the same row. *)
Theorem duplicate_heights_first_wins (h : Q) (before : DataFrame) (r1 : row)
    (between : DataFrame) (r2 : row) (after : DataFrame) :
  (forall r, In r before -> ~ height r == h) ->
  height r1 == h ->
  height r2 == h ->
  let df := before ++ r1 :: between ++ r2 :: after in
  get_cfs_for_height h df = Ok (cfs r1, true) /\
  fst (Old.lookup h df) = cfs r1 /\
  fst (Copy.lookup h df) = cfs r1.
Proof.
  intros Hno H1 _ df. subst df.
  unfold get_cfs_for_height, Old.lookup, Copy.lookup.
  rewrite (select_height_first h before r1 _ Hno H1).
  repeat split; reflexivity.
Qed.

Lemma duplicate_heights_first_wins_witness :
  let df := [{| height := 0.50; cfs := 9000 |};
             {| height := 1.00; cfs := 18000 |};
             {| height := 1.50; cfs := 29000 |};
             {| height := 1.00; cfs := 77 |}] in
  get_cfs_for_height 1.00 df = Ok (18000, true) /\
  fst (Old.lookup 1.00 df) = 18000 /\
  fst (Copy.lookup 1.00 df) = 18000.
Proof.
  apply (duplicate_heights_first_wins 1.00
           [{| height := 0.50; cfs := 9000 |}]
           {| height := 1.00; cfs := 18000 |}
           [{| height := 1.50; cfs := 29000 |}]
           {| height := 1.00; cfs := 77 |} []).
  - intros r [Hr|[]]. subst r. simpl. intros H. discriminate H.
  - reflexivity.
  - reflexivity.
Defined.

(** ** Nearest lookup *)

Lemma Qle_bool_false (x y : Q) : Qle_bool x y = false -> y < x.
Proof.
  intros E. apply Qnot_le_lt. intros Hle.
  apply Qle_bool_iff in Hle. congruence.
Qed.

(** What [scan] returns: either the label it started with, when no later value
    is strictly smaller, or the position of the first value that is strictly
    smaller than everything before it and at most everything after it. *)
Lemma scan_spec (s : list Q) :
  forall (best_i : nat) (best : Q) (i : nat),
    (best_i < i)%nat ->
    exists v,
      ((scan best_i best i s = best_i /\ v = best) \/
       (exists j, scan best_i best i s = (i + j)%nat /\ nth_error s j = Some v)) /\
      v <= best /\
      (forall j x, nth_error s j = Some x -> v <= x) /\
      (scan best_i best i s <> best_i -> v < best) /\
      (forall j x, nth_error s j = Some x ->
                   (i + j < scan best_i best i s)%nat -> v < x).
Proof.
  induction s as [|x s IH]; intros best_i best i Hlt.
  - exists best. simpl. repeat split.
    + left. split; reflexivity.
    + lra.
    + intros [|j] y Hy; discriminate Hy.
    + intros Hne. exfalso. apply Hne. reflexivity.
    + intros [|j] y Hy; discriminate Hy.
  - simpl. destruct (Qle_bool best x) eqn:E.
    + apply Qle_bool_iff in E.
      destruct (IH best_i best (S i) (Nat.lt_lt_succ_r _ _ Hlt))
        as (v & Hloc & Hle & Hall & Hstrict & Hbefore).
      exists v. repeat split.
      * destruct Hloc as [Hloc|(j & Hk & Hj)]; [left; exact Hloc|].
        right. exists (S j). split; [lia|exact Hj].
      * exact Hle.
      * intros [|j] y Hy; simpl in Hy.
        -- injection Hy as <-. lra.
        -- exact (Hall j y Hy).
      * exact Hstrict.
      * intros [|j] y Hy Hpos; simpl in Hy.
        -- injection Hy as <-.
           assert (v < best) by (apply Hstrict; lia). lra.
        -- apply (Hbefore j y Hy). lia.
    + apply Qle_bool_false in E.
      destruct (IH i x (S i) (Nat.lt_succ_diag_r i))
        as (v & Hloc & Hle & Hall & Hstrict & Hbefore).
      exists v. repeat split.
      * right. destruct Hloc as [[Hk Hv]|(j & Hk & Hj)].
        -- exists 0%nat. split; [lia|]. simpl. congruence.
        -- exists (S j). split; [lia|exact Hj].
      * lra.
      * intros [|j] y Hy; simpl in Hy.
        -- injection Hy as <-. exact Hle.
        -- exact (Hall j y Hy).
      * intros _. lra.
      * intros [|j] y Hy Hpos; simpl in Hy.
        -- injection Hy as <-. apply Hstrict. lia.
        -- apply (Hbefore j y Hy). lia.
Qed.

(** [idxmin] on a non-empty series: the label returned holds a value that is
    at most every value and strictly below every value at a smaller label. *)
Lemma idxmin_spec (x : Q) (s : list Q) :
  exists k v,
    idxmin (x :: s) = Ok k /\
    nth_error (x :: s) k = Some v /\
    (forall j y, nth_error (x :: s) j = Some y -> v <= y) /\
    (forall j y, (j < k)%nat -> nth_error (x :: s) j = Some y -> v < y).
Proof.
  destruct (scan_spec s 0%nat x 1%nat Nat.lt_0_1)
    as (v & Hloc & Hle & Hall & Hstrict & Hbefore).
  exists (scan 0%nat x 1%nat s), v. split; [reflexivity|].
  repeat split.
  - destruct Hloc as [[Hk Hv]|(j & Hk & Hj)]; rewrite Hk.
    + simpl. congruence.
    + simpl. exact Hj.
  - intros [|j] y Hy; simpl in Hy.
    + injection Hy as <-. exact Hle.
    + exact (Hall j y Hy).
  - intros [|j] y Hpos Hy; simpl in Hy.
    + injection Hy as <-. apply Hstrict. lia.
    + apply (Hbefore j y Hy). lia.
Qed.

(** The nearest-match branch on a non-empty table with no row at the
    requested height. *)
Lemma nearest_row (h : Q) (df : DataFrame) :
  df <> [] ->
  (forall r, In r df -> ~ height r == h) ->
  exists i r,
    nth_error df i = Some r /\
    idxmin (abs_diff df h) = Ok i /\
    get_cfs_for_height h df = Ok (cfs r, false) /\
    (forall j r', nth_error df j = Some r' ->
                  Qabs (float_sub (height r) h) <=
                  Qabs (float_sub (height r') h)) /\
    (forall j r', (j < i)%nat -> nth_error df j = Some r' ->
                  Qabs (float_sub (height r) h) <
                  Qabs (float_sub (height r') h)).
Proof.
  intros Hne Hno. destruct df as [|r0 df]; [congruence|].
  destruct (idxmin_spec (Qabs (float_sub (height r0) h)) (abs_diff df h))
    as (k & v & Hidx & Hk & Hmin & Hfirst).
  change (Qabs (float_sub (height r0) h) :: abs_diff df h)
    with (abs_diff (r0 :: df) h) in *.
  unfold abs_diff in Hk, Hmin, Hfirst.
  rewrite nth_error_map in Hk.
  destruct (nth_error (r0 :: df) k) as [r|] eqn:Hr; [|discriminate Hk].
  cbn [option_map] in Hk. injection Hk as <-.
  exists k, r. split; [exact Hr|]. split; [exact Hidx|].
  split; [|split].
  - unfold get_cfs_for_height.
    rewrite (select_height_none h (r0 :: df) Hno).
    rewrite Hidx. unfold bind, loc. rewrite Hr. reflexivity.
  - intros j r' Hj. apply (Hmin j).
    rewrite nth_error_map, Hj. reflexivity.
  - intros j r' Hlt Hj. apply (Hfirst j); [exact Hlt|].
    rewrite nth_error_map, Hj. reflexivity.
Qed.

(** C2 (amended): on a non-empty table with no row at the requested height,
    the lookup returns, flagged as not exact, the rate of the first row at the
    minimum of the distance as the program computes it: the absolute value of
    the binary64 difference between the row's height and the requested
    height.  That distance is at most that of every row and strictly below
    that of every earlier row.  In particular 1.75 on the built-in table
    resolves to 29000, not exact. *)
Theorem nearest_match_first_minimum :
  (forall (h : Q) (df : DataFrame),
      df <> [] ->
      (forall r, In r df -> ~ height r == h) ->
      exists i r,
        nth_error df i = Some r /\
        get_cfs_for_height h df = Ok (cfs r, false) /\
        (forall j r', nth_error df j = Some r' ->
                      Qabs (float_sub (height r) h) <=
                      Qabs (float_sub (height r') h)) /\
        (forall j r', (j < i)%nat -> nth_error df j = Some r' ->
                      Qabs (float_sub (height r) h) <
                      Qabs (float_sub (height r') h))) /\
  get_cfs_for_height 1.75 create_sample_csv = Ok (29000, false).
Proof.
  split; [|reflexivity].
  intros h df Hne Hno.
  destruct (nearest_row h df Hne Hno) as (i & r & Hr & _ & Hget & Hmin & Hfirst).
  exists i, r. auto.
Qed.

Lemma nearest_match_first_minimum_witness :
  exists i r,
    nth_error create_sample_csv i = Some r /\
    get_cfs_for_height 1.75 create_sample_csv = Ok (cfs r, false) /\
    (forall j r', nth_error create_sample_csv j = Some r' ->
                  Qabs (float_sub (height r) 1.75) <=
                  Qabs (float_sub (height r') 1.75)) /\
    (forall j r', (j < i)%nat -> nth_error create_sample_csv j = Some r' ->
                  Qabs (float_sub (height r) 1.75) <
                  Qabs (float_sub (height r') 1.75)).
Proof.
  apply (proj1 nearest_match_first_minimum 1.75 create_sample_csv).
  - discriminate.
  - intros r Hin. simpl in Hin.
    repeat (destruct Hin as [<-|Hin]; [intros H; discriminate H|]).
    destruct Hin.
Defined.

(** C2 as stated fails.  On the two rows (0.9999999999999999, 111) and
    (3.0, 333), the first height being the float 1 - 2^-53, the requested
    height 2.0 has no exact row; the row at height 3.0 is strictly the nearer
    one (1 against 1 + 2^-53), but both differences round to 1.0, the first
    row is taken and the rate returned is 111: no row that minimises the
    exact distance has the rate returned. *)
Lemma nearest_match_is_not_exact_minimum :
  let below_one := 9007199254740991 # 9007199254740992 in
  let df := [{| height := below_one; cfs := 111 |};
             {| height := 3; cfs := 333 |}] in
  get_cfs_for_height 2 df = Ok (111, false) /\
  Qabs (3 - 2) < Qabs (below_one - 2) /\
  ~ (exists i r,
       nth_error df i = Some r /\
       get_cfs_for_height 2 df = Ok (cfs r, false) /\
       forall j r', nth_error df j = Some r' ->
                    Qabs (height r - 2) <= Qabs (height r' - 2)).
Proof.
  intros below_one df.
  assert (Hget : get_cfs_for_height 2 df = Ok (111, false))
    by (vm_compute; reflexivity).
  split; [exact Hget|]. split; [reflexivity|].
  intros (i & r & Hr & Hget' & Hmin).
  rewrite Hget in Hget'. injection Hget' as Hrate.
  destruct i as [|[|i]]; simpl in Hr.
  - injection Hr as <-.
    specialize (Hmin 1%nat {| height := 3; cfs := 333 |} eq_refl).
    vm_compute in Hmin. apply Hmin. reflexivity.
  - injection Hr as <-. discriminate Hrate.
  - destruct i; discriminate Hr.
Qed.

(** ** Runs of the script *)

Lemma load_discharge_data_run (csv : csv_source) (p : page) :
  exists notices,
    load_discharge_data csv p =
      (Ok (loaded csv), {| session := session p; shown := shown p ++ notices |}) /\
    (forall e, In e notices -> exists msg, e = st_warning msg \/ e = st_error msg).
Proof.
  destruct csv; simpl; run_script.
  - eexists. split; [reflexivity|].
    intros e [<-|[]]. eexists. left. reflexivity.
  - eexists. split; [reflexivity|].
    intros e [<-|[]]. eexists. right. reflexivity.
  - exists []. rewrite app_nil_r. destruct p. split; [reflexivity|].
    intros e [].
Qed.

Lemma notices_show_no_totals (notices : list element) :
  (forall e, In e notices -> exists msg, e = st_warning msg \/ e = st_error msg) ->
  existsb shows_totals notices = false.
Proof.
  intros Hall. destruct (existsb shows_totals notices) eqn:E; [|reflexivity].
  apply existsb_exists in E. destruct E as (e & Hin & He).
  destruct (Hall e Hin) as (msg & [-> | ->]); discriminate He.
Qed.

Lemma on_clear_run (p : page) :
  on_clear p =
    (Ok tt, {| session := clear_all (session p);
               shown := shown p ++ [st_success [Lit "All calculations cleared!"]] |}).
Proof. reflexivity. Qed.

Lemma show_results_session (p : page) :
  session (snd (show_results p)) = session p.
Proof.
  unfold show_results. run_script.
  repeat split_match; reflexivity.
Qed.

Lemma on_calculate_session (now : string) (ui : inputs) (df : DataFrame)
    (p : page) :
  session (snd (on_calculate now ui df p)) =
    match calculate_discharge now (in_num_gates ui) (in_duration ui)
            (in_gate_height ui) df with
    | Ok r => accumulate r (session p)
    | Raise _ => session p
    end.
Proof.
  unfold on_calculate. run_script.
  repeat split_match; reflexivity.
Qed.

(** The session after one run. *)
Lemma rerun_session (now : string) (csv : csv_source) (ui : inputs)
    (s : session_state) :
  fst (rerun now csv ui s) =
    match clicked ui with
    | Some CalculateButton =>
        match calculate_discharge now (in_num_gates ui) (in_duration ui)
                (in_gate_height ui) (loaded csv) with
        | Ok r => accumulate r (set_discharge_data (loaded csv) s)
        | Raise _ => set_discharge_data (loaded csv) s
        end
    | Some ClearButton => clear_all (set_discharge_data (loaded csv) s)
    | None => set_discharge_data (loaded csv) s
    end.
Proof.
  unfold rerun, main, pressed.
  destruct (load_discharge_data_run csv {| session := s; shown := [] |})
    as (notices & Hload & _).
  unfold seq at 1. rewrite Hload. unfold seq at 1. unfold modify at 1.
  cbn [session shown].
  destruct (clicked ui) as [[|]|].
  - unfold seq at 1.
    pose proof (on_calculate_session now ui (loaded csv)
                  {| session := set_discharge_data (loaded csv) s;
                     shown := [] ++ notices |}) as Hcalc.
    destruct (on_calculate now ui (loaded csv) _) as [[[]|e] p1] eqn:Hrun;
      cbn [snd session] in Hcalc.
    + unfold seq at 1. unfold ret at 1.
      pose proof (show_results_session p1) as Hshow.
      destruct (show_results p1) as [[[]|e] p2]; cbn [snd fst session] in *;
        rewrite Hshow, Hcalc; reflexivity.
    + cbn [fst session]. rewrite Hcalc.
      destruct (calculate_discharge _ _ _ _ _) eqn:Hc; [|reflexivity].
      reflexivity.
  - unfold seq at 1. unfold ret at 1. unfold seq at 1. rewrite on_clear_run.
    cbn [session shown].
    match goal with |- context [show_results ?p] =>
      pose proof (show_results_session p) as Hshow;
      destruct (show_results p) as [[[]|e] p2] end;
      cbn [snd fst session] in *; rewrite Hshow; reflexivity.
  - unfold seq at 1. unfold ret at 1. unfold seq at 1. unfold ret at 1.
    match goal with |- context [show_results ?p] =>
      pose proof (show_results_session p) as Hshow;
      destruct (show_results p) as [[[]|e] p2] end;
      cbn [snd fst session] in *; rewrite Hshow; reflexivity.
Qed.

(** ** The running total *)

Lemma sum_discharge_app (l : list calculation) (r : calculation) :
  sum_discharge (l ++ [r]) == sum_discharge l + discharge r.
Proof.
  induction l as [|r' l IH]; simpl.
  - ring.
  - rewrite IH. ring.
Qed.

Lemma truediv_ok (a b : Q) : ~ b == 0 -> truediv a b = Ok (a / b).
Proof.
  intros Hb. unfold truediv.
  destruct (Qeq_bool b 0) eqn:E; [|reflexivity].
  apply Qeq_bool_eq in E. contradiction.
Qed.

Lemma consistent_initial : consistent initialize_session_state.
Proof. unfold consistent. simpl. reflexivity. Qed.

Lemma consistent_set_discharge_data (df : DataFrame) (s : session_state) :
  consistent s -> consistent (set_discharge_data df s).
Proof. intros H. exact H. Qed.

Lemma consistent_accumulate (r : calculation) (s : session_state) :
  consistent s -> consistent (accumulate r s).
Proof.
  unfold consistent, accumulate. simpl. intros H.
  rewrite sum_discharge_app, H. reflexivity.
Qed.

Lemma consistent_clear_all (s : session_state) : consistent (clear_all s).
Proof. unfold consistent. simpl. reflexivity. Qed.

Lemma consistent_rerun (now : string) (csv : csv_source) (ui : inputs)
    (s : session_state) :
  consistent s -> consistent (fst (rerun now csv ui s)).
Proof.
  intros H. rewrite rerun_session.
  destruct (clicked ui) as [[|]|].
  - destruct (calculate_discharge _ _ _ _ _).
    + apply consistent_accumulate, consistent_set_discharge_data, H.
    + apply consistent_set_discharge_data, H.
  - apply consistent_clear_all.
  - apply consistent_set_discharge_data, H.
Qed.

Lemma consistent_play (evs : list event) :
  forall s, consistent s -> consistent (play evs s).
Proof.
  induction evs as [|ev evs IH]; intros s H; [exact H|].
  simpl. apply IH, consistent_rerun, H.
Qed.

(** C5: after every sequence of runs from a fresh session (calculations,
    clears, runs without a click, runs stopped by an exception), the running
    total equals the sum of the discharges of the entries held; in particular
    accumulating three entries with discharges 10, 20 and 30 gives total 60,
    count 3 and average 20. *)
Theorem total_is_sum_of_entries :
  (forall evs : list event,
      total_discharge (play evs initialize_session_state) ==
      sum_discharge (calculations (play evs initialize_session_state))) /\
  (forall r1 r2 r3 : calculation,
      discharge r1 == 10 -> discharge r2 == 20 -> discharge r3 == 30 ->
      let s := accumulate r3 (accumulate r2
                 (accumulate r1 initialize_session_state)) in
      calculations s = [r1; r2; r3] /\
      total_discharge s == 60 /\
      length (calculations s) = 3%nat /\
      exists avg, average_discharge s = Ok avg /\ avg == 20).
Proof.
  split.
  - intros evs. apply (consistent_play evs), consistent_initial.
  - intros r1 r2 r3 H1 H2 H3 s. subst s.
    unfold average_discharge, accumulate, add_to_total, append_calculation,
      initialize_session_state.
    cbn [calculations total_discharge discharge_data app length].
    assert (Htotal : 0.0 + discharge r1 + discharge r2 + discharge r3 == 60)
      by (rewrite H1, H2, H3; reflexivity).
    split; [reflexivity|]. split; [exact Htotal|]. split; [reflexivity|].
    eexists. split; [apply truediv_ok; discriminate|].
    rewrite Htotal. reflexivity.
Qed.

Lemma total_is_sum_of_entries_witness :
  let entry d :=
    {| timestamp := "2025-01-01 00:00:00"; num_gates := 1; duration := d;
       gate_height := 1.0; cfs_value := 3840; discharge := d * 10;
       exact_match := true |} in
  let s := accumulate (entry 3) (accumulate (entry 2)
             (accumulate (entry 1) initialize_session_state)) in
  calculations s = [entry 1; entry 2; entry 3] /\
  total_discharge s == 60 /\
  length (calculations s) = 3%nat /\
  exists avg, average_discharge s = Ok avg /\ avg == 20.
Proof.
  intros entry.
  apply (proj2 total_is_sum_of_entries (entry 1) (entry 2) (entry 3));
    reflexivity.
Defined.

(** ** The results section and the Clear button *)

Lemma length_pos_nonzero (A : Type) (l : list A) :
  l <> [] -> ~ inject_Z (Z.of_nat (length l)) == 0.
Proof.
  intros Hne. destruct l as [|a l]; [congruence|].
  unfold Qeq. simpl. lia.
Qed.

Lemma show_results_empty (p : page) :
  calculations (session p) = [] ->
  show_results p =
    (Ok tt,
     {| session := session p;
        shown := shown p ++
          [st_info [Lit "Enter parameters above and click 'Calculate Discharge' to see results!"]] |}).
Proof.
  intros Hnil. unfold show_results. run_script. rewrite Hnil. reflexivity.
Qed.

Lemma show_results_nonempty (p : page) :
  calculations (session p) <> [] ->
  let s := session p in
  let avg := total_discharge s / inject_Z (Z.of_nat (length (calculations s))) in
  average_discharge s = Ok avg /\
  show_results p =
    (Ok tt,
     {| session := s;
        shown := shown p ++
          [st_metric "Total Calculations" [Len (length (calculations s))];
           st_metric "Total Discharge" [Num (total_discharge s) ",.2f"];
           st_metric "Average Discharge" [Num avg ",.2f"];
           st_dataframe (calculations s);
           st_download_button (calculations s)] |}).
Proof.
  intros Hne. cbv zeta.
  assert (Havg : average_discharge (session p) =
                 Ok (total_discharge (session p) /
                     inject_Z (Z.of_nat (length (calculations (session p))))))
    by (apply truediv_ok, length_pos_nonzero, Hne).
  split; [exact Havg|].
  unfold show_results, seq, get.
  replace (0 <? length (calculations (session p)))%nat with true
    by (destruct (calculations (session p)); [congruence|reflexivity]).
  unfold lift, emit. rewrite Havg. cbn [session shown].
  repeat rewrite <- app_assoc. reflexivity.
Qed.

(** C7: when the session holds at least one entry the results section shows
    the average, computed as total / count; when it holds none the section is
    the hint alone, without any metric; in neither case does the division
    raise. *)
Theorem summary_only_when_nonempty (p : page) :
  (calculations (session p) <> [] ->
   exists avg,
     average_discharge (session p) = Ok avg /\
     avg == total_discharge (session p) /
            inject_Z (Z.of_nat (length (calculations (session p)))) /\
     exists before after,
       snd (show_results p) =
         {| session := session p;
            shown := shown p ++ before ++
                     st_metric "Average Discharge" [Num avg ",.2f"] :: after |}) /\
  (calculations (session p) = [] ->
   exists hint,
     snd (show_results p) =
       {| session := session p; shown := shown p ++ [st_info hint] |}) /\
  fst (show_results p) = Ok tt.
Proof.
  split; [|split].
  - intros Hne. destruct (show_results_nonempty p Hne) as [Havg Hrun].
    eexists. split; [exact Havg|]. split; [reflexivity|].
    rewrite Hrun. eexists [_; _], [_; _]. reflexivity.
  - intros Hnil. rewrite (show_results_empty p Hnil). eexists. reflexivity.
  - destruct (calculations (session p)) as [|r l] eqn:E.
    + rewrite (show_results_empty p E). reflexivity.
    + assert (Hne : calculations (session p) <> []) by congruence.
      destruct (show_results_nonempty p Hne) as [_ Hrun].
      rewrite Hrun. reflexivity.
Qed.

Lemma summary_only_when_nonempty_witness :
  let r := {| timestamp := "2025-01-01 00:00:00"; num_gates := 2;
              duration := 3; gate_height := 0.50; cfs_value := 9000;
              discharge := 140.625; exact_match := true |} in
  let p := {| session := accumulate r initialize_session_state; shown := [] |} in
  exists avg,
    average_discharge (session p) = Ok avg /\
    avg == total_discharge (session p) /
           inject_Z (Z.of_nat (length (calculations (session p)))) /\
    exists before after,
      snd (show_results p) =
        {| session := session p;
           shown := shown p ++ before ++
                    st_metric "Average Discharge" [Num avg ",.2f"] :: after |}.
Proof.
  intros r p. apply (proj1 (summary_only_when_nonempty p)). discriminate.
Defined.

Lemma existsb_shows_totals_app (l1 l2 : list element) :
  existsb shows_totals l1 = false ->
  existsb shows_totals l2 = false ->
  existsb shows_totals (l1 ++ l2) = false.
Proof. intros H1 H2. rewrite existsb_app, H1, H2. reflexivity. Qed.

Lemma rerun_clear (now : string) (csv : csv_source) (ui : inputs)
    (s : session_state) :
  clicked ui = Some ClearButton ->
  exists notices hint,
    rerun now csv ui s =
      (clear_all (set_discharge_data (loaded csv) s),
       notices ++ [st_success [Lit "All calculations cleared!"]; st_info hint]) /\
    (forall e, In e notices -> exists msg, e = st_warning msg \/ e = st_error msg).
Proof.
  intros Hclick. unfold rerun, main, pressed. rewrite Hclick.
  destruct (load_discharge_data_run csv {| session := s; shown := [] |})
    as (notices & Hload & Hnotices).
  unfold seq at 1. rewrite Hload. unfold seq at 1. unfold modify at 1.
  cbn [session shown].
  unfold seq at 1. unfold ret at 1. unfold seq at 1. rewrite on_clear_run.
  cbn [session shown].
  rewrite show_results_empty by reflexivity.
  cbn [session shown].
  exists notices. eexists. split; [|exact Hnotices].
  rewrite <- app_assoc. reflexivity.
Qed.

(** C6: a run in which Clear was clicked, from any prior session state, leaves
    no entries, count 0 and total 0.0; both fields are reset before anything
    that displays the accumulator is rendered: the page of that run shows the
    notice and the hint but no metric, table or download of entries. *)
Theorem clear_resets_everything (now : string) (csv : csv_source)
    (ui : inputs) (s : session_state) :
  clicked ui = Some ClearButton ->
  let after := fst (rerun now csv ui s) in
  let page := snd (rerun now csv ui s) in
  after = clear_all (set_discharge_data (loaded csv) s) /\
  calculations after = [] /\
  length (calculations after) = 0%nat /\
  total_discharge after = 0.0 /\
  existsb shows_totals page = false /\
  (forall e, ~ In (st_exception e) page).
Proof.
  intros Hclick after page. subst after page.
  destruct (rerun_clear now csv ui s Hclick) as (notices & hint & Hrun & Hnot).
  rewrite Hrun. cbn [fst snd].
  repeat split.
  - apply existsb_shows_totals_app;
      [apply notices_show_no_totals, Hnot|reflexivity].
  - intros e Hin. apply in_app_or in Hin. destruct Hin as [Hin|Hin].
    + destruct (Hnot _ Hin) as (msg & [H|H]); discriminate H.
    + simpl in Hin. destruct Hin as [H|[H|[]]]; discriminate H.
Qed.

Lemma clear_resets_everything_witness :
  let r := {| timestamp := "2025-01-01 00:00:00"; num_gates := 2;
              duration := 3; gate_height := 0.50; cfs_value := 9000;
              discharge := 140.625; exact_match := true |} in
  let s := accumulate r initialize_session_state in
  let ui := {| in_num_gates := 1; in_duration := 1.0; in_gate_height := 1.0;
               clicked := Some ClearButton |} in
  let after := fst (rerun "2025-01-01 00:01:00" NotFound ui s) in
  let page := snd (rerun "2025-01-01 00:01:00" NotFound ui s) in
  after = clear_all (set_discharge_data (loaded NotFound) s) /\
  calculations after = [] /\
  length (calculations after) = 0%nat /\
  total_discharge after = 0.0 /\
  existsb shows_totals page = false /\
  (forall e, ~ In (st_exception e) page).
Proof.
  intros r s ui.
  apply (clear_resets_everything "2025-01-01 00:01:00" NotFound ui s).
  reflexivity.
Defined.

(** ** The Calculate button *)

Lemma select_height_nil (h : Q) (df : DataFrame) :
  select_height h df = [] -> forall r, In r df -> ~ height r == h.
Proof.
  intros Hnil r Hin Heq.
  assert (Hsel : In r (select_height h df)).
  { apply filter_In. split; [exact Hin|]. apply Qeq_eq_bool, Heq. }
  rewrite Hnil in Hsel. exact Hsel.
Qed.

(** On a non-empty table every height resolves. *)
Lemma get_cfs_for_height_total (h : Q) (df : DataFrame) :
  df <> [] -> exists rate exact, get_cfs_for_height h df = Ok (rate, exact).
Proof.
  intros Hne. destruct (select_height h df) as [|r l] eqn:E.
  - destruct (nearest_row h df Hne (select_height_nil h df E))
      as (i & r & _ & _ & Hget & _).
    exists (cfs r), false. exact Hget.
  - exists (cfs r), true. unfold get_cfs_for_height. rewrite E. reflexivity.
Qed.

Lemma accumulate_nonempty (c : calculation) (s : session_state) :
  calculations (accumulate c s) <> [].
Proof.
  unfold accumulate. simpl. intros H. apply app_eq_nil in H.
  destruct H as [_ H]. discriminate H.
Qed.

(** A run in which Calculate was clicked and the calculation succeeded: the
    entry is accumulated and the page shows its discharge. *)
Lemma rerun_calculate (now : string) (csv : csv_source) (ui : inputs)
    (s : session_state) (c : calculation) :
  clicked ui = Some CalculateButton ->
  calculate_discharge now (in_num_gates ui) (in_duration ui)
    (in_gate_height ui) (loaded csv) = Ok c ->
  fst (rerun now csv ui s) = accumulate c (set_discharge_data (loaded csv) s).
Proof.
  intros Hclick Hcalc. rewrite rerun_session, Hclick, Hcalc. reflexivity.
Qed.




(** The body of the Calculate button on a non-empty table with no row at the
    requested height: the entry is accumulated, and the success line and the
    warning are shown, in this order. *)
Lemma on_calculate_nearest (now : string) (ui : inputs) (df : DataFrame)
    (p : page) (i : nat) (r : row) :
  nth_error df i = Some r ->
  idxmin (abs_diff df (in_gate_height ui)) = Ok i ->
  get_cfs_for_height (in_gate_height ui) df = Ok (cfs r, false) ->
  exists c,
    calculate_discharge now (in_num_gates ui) (in_duration ui)
      (in_gate_height ui) df = Ok c /\
    cfs_value c = cfs r /\
    exact_match c = false /\
    on_calculate now ui df p =
      (Ok tt,
       {| session := accumulate c (session p);
          shown := shown p ++
            [st_success [Lit "Calculation completed! Individual discharge: ";
                         Num (discharge c) ",.2f"];
             st_warning [Lit "Using closest available height: ";
                         Num (height r) "";
                         Lit " (CFS: "; Num (cfs r) ","; Lit ")"]] |}).
Proof.
  intros Hr Hidx Hget.
  pose proof (calculate_discharge_found now (in_num_gates ui) (in_duration ui)
                _ _ _ _ Hget) as Hcalc.
  eexists. split; [exact Hcalc|]. split; [reflexivity|]. split; [reflexivity|].
  unfold on_calculate, seq, lift. rewrite Hcalc.
  unfold modify, emit. cbn [session shown exact_match negb cfs_value discharge].
  rewrite Hidx. unfold loc. rewrite Hr.
  repeat rewrite <- app_assoc. reflexivity.
Qed.

(** C8 (amended): when Calculate is clicked with a height that no row of the
    (non-empty) table has, the page of that run shows, next to the success
    line with the discharge, a warning made of the height of the row actually
    used (the row of the table whose rate the entry carries) and that row's
    rate. *)
Theorem nearest_match_warning (now : string) (csv : csv_source) (ui : inputs)
    (s : session_state) :
  clicked ui = Some CalculateButton ->
  loaded csv <> [] ->
  (forall r, In r (loaded csv) -> ~ height r == in_gate_height ui) ->
  exists i r c,
    nth_error (loaded csv) i = Some r /\
    calculate_discharge now (in_num_gates ui) (in_duration ui)
      (in_gate_height ui) (loaded csv) = Ok c /\
    cfs_value c = cfs r /\
    exact_match c = false /\
    let warning :=
      [Lit "Using closest available height: "; Num (height r) "";
       Lit " (CFS: "; Num (cfs r) ","; Lit ")"] in
    names (height r) warning = true /\
    exists before after,
      snd (rerun now csv ui s) =
        before ++
        st_success [Lit "Calculation completed! Individual discharge: ";
                    Num (discharge c) ",.2f"]
        :: st_warning warning :: after.
Proof.
  intros Hclick Hne Hno.
  destruct (nearest_row _ _ Hne Hno)
    as (i & r & Hr & Hidx & Hget & Hmin & Hfirst).
  destruct (load_discharge_data_run csv {| session := s; shown := [] |})
    as (notices & Hload & _).
  destruct (on_calculate_nearest now ui (loaded csv)
              {| session := set_discharge_data (loaded csv) s;
                 shown := [] ++ notices |} i r Hr Hidx Hget)
    as (c & Hcalc & Hrate & Hexact & Hrun).
  exists i, r, c. repeat (split; [assumption|]).
  cbv zeta. split.
  - simpl. rewrite Qeq_bool_refl. reflexivity.
  - unfold rerun, main, pressed. rewrite Hclick.
    unfold seq at 1. rewrite Hload. unfold seq at 1. unfold modify at 1.
    cbn [session shown].
    unfold seq at 1. rewrite Hrun.
    unfold seq at 1. unfold ret at 1.
    match goal with |- context [show_results ?p] =>
      destruct (show_results_nonempty p (accumulate_nonempty _ _)) as [_ Hshow]
    end.
    rewrite Hshow. cbn [snd shown].
    exists notices. eexists.
    rewrite <- app_assoc. reflexivity.
Qed.

Lemma nearest_match_warning_witness :
  let ui := {| in_num_gates := 2; in_duration := 3; in_gate_height := 1.75;
               clicked := Some CalculateButton |} in
  let csv := Contents create_sample_csv in
  let now := "2025-01-01 00:00:00"%string in
  exists i r c,
    nth_error (loaded csv) i = Some r /\
    calculate_discharge now (in_num_gates ui) (in_duration ui)
      (in_gate_height ui) (loaded csv) = Ok c /\
    cfs_value c = cfs r /\
    exact_match c = false /\
    let warning :=
      [Lit "Using closest available height: "; Num (height r) "";
       Lit " (CFS: "; Num (cfs r) ","; Lit ")"] in
    names (height r) warning = true /\
    exists before after,
      snd (rerun now csv ui initialize_session_state) =
        before ++
        st_success [Lit "Calculation completed! Individual discharge: ";
                    Num (discharge c) ",.2f"]
        :: st_warning warning :: after.
Proof.
  intros ui csv now.
  apply (nearest_match_warning now csv ui initialize_session_state).
  - reflexivity.
  - discriminate.
  - intros r Hin. simpl in Hin.
    repeat (destruct Hin as [<-|Hin]; [intros H; discriminate H|]).
    destruct Hin.
Defined.

(** C8 as stated fails: for the height 1.75 on the built-in table the lookup
    is not exact and the row used has height 1.50, yet no warning on the page
    names the requested height 1.75. *)
Lemma warning_omits_requested_height :
  let ui := {| in_num_gates := 2; in_duration := 3; in_gate_height := 1.75;
               clicked := Some CalculateButton |} in
  let page := snd (rerun "2025-01-01 00:00:00" (Contents create_sample_csv) ui
                     initialize_session_state) in
  get_cfs_for_height 1.75 create_sample_csv = Ok (29000, false) /\
  (exists msg, In (st_warning msg) page /\ names 1.50 msg = true) /\
  ~ (exists msg,
       In (st_warning msg) page /\
       names 1.75 msg = true /\ names 1.50 msg = true).
Proof.
  intros ui page. split; [reflexivity|]. split.
  - eexists. split; [right; left; reflexivity|reflexivity].
  - intros (msg & Hin & Hreq & _). subst page ui.
    vm_compute in Hin.
    repeat (destruct Hin as [Hin|Hin];
            [try discriminate Hin; injection Hin as <-; discriminate Hreq|]).
    exact Hin.
Qed.

(** ** Missing data *)

(** The total of the old variant leaves out a calculation whose height has no
    row. *)
Lemma old_total_skips_missing (c : Old.calc) (rest : list Old.calc)
    (df : DataFrame) :
  (forall r, In r df -> ~ height r == Old.gate_height c) ->
  Old.total_spd (c :: rest) df = Old.total_spd rest df.
Proof.
  intros Hno. unfold Old.total_spd. simpl.
  rewrite (select_height_none _ df Hno). reflexivity.
Qed.

(** X11: the application on an empty table: the lookup raises, the calculation
    raises, and a Calculate run is stopped before anything is appended. *)
Lemma empty_table_stops_calculation (now : string) (ui : inputs)
    (s : session_state) :
  clicked ui = Some CalculateButton ->
  (exists e, get_cfs_for_height (in_gate_height ui) [] = Raise e) /\
  (exists e,
     calculate_discharge now (in_num_gates ui) (in_duration ui)
       (in_gate_height ui) [] = Raise e /\
     snd (rerun now (Contents []) ui s) = [st_exception e]) /\
  calculations (fst (rerun now (Contents []) ui s)) = calculations s /\
  total_discharge (fst (rerun now (Contents []) ui s)) = total_discharge s.
Proof.
  intros Hclick. split; [eexists; reflexivity|]. split.
  - eexists. split; [reflexivity|].
    unfold rerun, main, pressed. rewrite Hclick. reflexivity.
  - rewrite rerun_session, Hclick. split; reflexivity.
Qed.

Lemma zero_rate_spd (gates : Z) (hours : Q) :
  inject_Z gates * hours * 0 / 384 == 0.
Proof. field. Qed.

(** C3: the two older variants break it.  For a height that no row of the
    table has (in particular on an empty table) they take the rate to be 0,
    compute the discharge (gate count x duration x 0) / 384 = 0 and show it
    as a success, after the line saying that no data is available. *)
Theorem legacy_missing_data_reports_zero (gates : Z) (hours h : Q)
    (df : DataFrame) (i : nat) :
  (forall r, In r df -> ~ height r == h) ->
  exists spd,
    spd == 0 /\
    Copy.show_entry gates hours h df =
      Ok (0, spd,
          [st_text [Lit "No data available for the selected gate height."];
           st_success [Lit "SPD rate for entry 1: "; Num spd ",.6f"]]) /\
    Old.show_calculation i
      {| Old.num_of_gates := gates; Old.duration := hours;
         Old.gate_height := h |} df =
      Ok (0, spd,
          [st_text [Lit "No data available for the selected gate height."];
           st_success [Lit "SPD rate for Calculation "; Len (i + 1); Lit ": ";
                       Num spd ",.6f"]]).
Proof.
  intros Hno. exists (inject_Z gates * hours * 0 / 384).
  split; [apply zero_rate_spd|].
  unfold Copy.show_entry, Old.show_calculation, Copy.lookup, Old.lookup.
  cbn [Old.gate_height Old.num_of_gates Old.duration].
  rewrite (select_height_none h df Hno). split; reflexivity.
Qed.

Lemma legacy_missing_data_reports_zero_witness :
  exists spd,
    spd == 0 /\
    Copy.show_entry 1 1.0 10.0 create_sample_csv =
      Ok (0, spd,
          [st_text [Lit "No data available for the selected gate height."];
           st_success [Lit "SPD rate for entry 1: "; Num spd ",.6f"]]) /\
    Old.show_calculation 0
      {| Old.num_of_gates := 1; Old.duration := 1.0;
         Old.gate_height := 10.0 |} create_sample_csv =
      Ok (0, spd,
          [st_text [Lit "No data available for the selected gate height."];
           st_success [Lit "SPD rate for Calculation "; Len (0 + 1); Lit ": ";
                       Num spd ",.6f"]]).
Proof.
  apply (legacy_missing_data_reports_zero 1 1.0 10.0 create_sample_csv 0).
  intros r Hin. simpl in Hin.
  repeat (destruct Hin as [<-|Hin]; [intros H; discriminate H|]).
  destruct Hin.
Defined.

(** Three calculations on a one-row table, run through the script: the
    discharges are 10, 20 and 30, the total is 60, and the results section
    shows the average 20. *)
Example three_calculations_run :
  let table := Contents [{| height := 1.0; cfs := 3840 |}] in
  let click d := ("2025-01-01 00:00:00"%string, table,
                  {| in_num_gates := 1; in_duration := d;
                     in_gate_height := 1.0;
                     clicked := Some CalculateButton |}) in
  let s := play [click 1; click 2; click 3] initialize_session_state in
  Forall2 Qeq (map discharge (calculations s)) [10; 20; 30] /\
  total_discharge s == 60 /\
  exists avg, average_discharge s = Ok avg /\ avg == 20.
Proof.
  intros table click s. split; [|split].
  - repeat constructor.
  - reflexivity.
  - eexists. split; reflexivity.
Qed.

(** * Further properties of the application *)

(** ** The lookup *)

(** The two ways the lookup can succeed. *)
Lemma get_cfs_for_height_inv (h : Q) (df : DataFrame) (rate : Q)
    (exact : bool) :
  get_cfs_for_height h df = Ok (rate, exact) ->
  (exact = true /\
   exists r l, select_height h df = r :: l /\ rate = cfs r) \/
  (exact = false /\ select_height h df = [] /\
   exists i r,
     idxmin (abs_diff df h) = Ok i /\ nth_error df i = Some r /\ rate = cfs r).
Proof.
  unfold get_cfs_for_height. destruct (select_height h df) as [|r l] eqn:E.
  - destruct (idxmin (abs_diff df h)) as [i|e] eqn:Hidx; [|discriminate].
    unfold bind, loc. destruct (nth_error df i) as [r|] eqn:Hr; [|discriminate].
    intros H. injection H as <- <-. right. split; [reflexivity|].
    split; [reflexivity|]. exists i, r. auto.
  - intros H. injection H as <- <-. left. split; [reflexivity|].
    exists r, l. auto.
Qed.

Lemma select_height_In (h : Q) (df : DataFrame) (r : row) :
  In r (select_height h df) <-> In r df /\ height r == h.
Proof.
  unfold select_height. rewrite filter_In.
  split; intros [Hin Heq]; (split; [exact Hin|]).
  - apply Qeq_bool_eq, Heq.
  - apply Qeq_eq_bool, Heq.
Qed.

(** X1: whenever the lookup succeeds, its flag says exactly whether some row
    of the table has the requested height. *)
Theorem exact_flag_iff_row_exists (h : Q) (df : DataFrame) (rate : Q)
    (exact : bool) :
  get_cfs_for_height h df = Ok (rate, exact) ->
  (exact = true <-> exists r, In r df /\ height r == h).
Proof.
  intros Hget. apply get_cfs_for_height_inv in Hget.
  destruct Hget as [(-> & r & l & Hsel & _)|(-> & Hsel & _)].
  - split; [intros _|reflexivity].
    exists r. apply (select_height_In h df r). rewrite Hsel. left. reflexivity.
  - split; [discriminate|].
    intros (r & Hin & Heq). exfalso.
    exact (select_height_nil h df Hsel r Hin Heq).
Qed.

Lemma exact_flag_iff_row_exists_witness :
  false = true <-> exists r, In r create_sample_csv /\ height r == 1.75.
Proof.
  apply (exact_flag_iff_row_exists 1.75 create_sample_csv 29000 false).
  reflexivity.
Defined.

(** The difference of two equal floats is 0. *)
Lemma float_sub_eq (x h : Q) : x == h -> Qabs (float_sub x h) == 0.
Proof.
  intros Heq. unfold float_sub, round64.
  assert (Hnum : Qnum (x - h) = 0%Z).
  { unfold Qeq in Heq. simpl. lia. }
  rewrite Hnum. reflexivity.
Qed.

(** X2: whenever the lookup succeeds, exact or not, the rate returned is the
    rate of a row of the table, and the distance the program computes for that
    row (the absolute value of the binary64 difference of the heights) is at
    most the one it computes for every row. *)
Theorem returned_rate_is_of_a_nearest_row (h : Q) (df : DataFrame) (rate : Q)
    (exact : bool) :
  get_cfs_for_height h df = Ok (rate, exact) ->
  exists r,
    In r df /\ cfs r = rate /\
    forall r', In r' df ->
               Qabs (float_sub (height r) h) <= Qabs (float_sub (height r') h).
Proof.
  intros Hget.
  destruct (get_cfs_for_height_inv h df rate exact Hget)
    as [(_ & r & l & Hsel & ->)|(-> & Hsel & _)].
  - assert (Hr : In r df /\ height r == h).
    { apply select_height_In. rewrite Hsel. left. reflexivity. }
    exists r. split; [apply Hr|]. split; [reflexivity|].
    intros r' _. rewrite (float_sub_eq _ _ (proj2 Hr)). apply Qabs_nonneg.
  - assert (Hne : df <> []).
    { intros ->. discriminate Hget. }
    destruct (nearest_row h df Hne (select_height_nil h df Hsel))
      as (i & r & Hr & _ & Hget' & Hmin & _).
    rewrite Hget in Hget'. injection Hget' as ->.
    exists r. split; [exact (nth_error_In _ _ Hr)|]. split; [reflexivity|].
    intros r' Hin. destruct (In_nth_error _ _ Hin) as (j & Hj).
    exact (Hmin j r' Hj).
Qed.

Lemma returned_rate_is_of_a_nearest_row_witness :
  exists r,
    In r create_sample_csv /\ cfs r = 58000 /\
    forall r', In r' create_sample_csv ->
               Qabs (float_sub (height r) 7.25) <=
               Qabs (float_sub (height r') 7.25).
Proof.
  apply (returned_rate_is_of_a_nearest_row 7.25 create_sample_csv 58000 false).
  reflexivity.
Defined.



Lemma float_sub_pos_not_eq (x h : Q) :
  0 < Qabs (float_sub x h) -> ~ x == h.
Proof.
  intros Hpos Heq. rewrite (float_sub_eq x h Heq) in Hpos.
  apply (Qlt_irrefl 0), Hpos.
Qed.

(** A row whose computed distance to the requested height is strictly below
    that of every other row is the one the lookup uses; the flag tells whether
    that row has the height. *)
Lemma strictly_nearest_row (h : Q) (df : DataFrame) (i : nat) (r : row) :
  nth_error df i = Some r ->
  (forall j r', j <> i -> nth_error df j = Some r' ->
                Qabs (float_sub (height r) h) <
                Qabs (float_sub (height r') h)) ->
  get_cfs_for_height h df = Ok (cfs r, Qeq_bool (height r) h).
Proof.
  intros Hr Hstrict.
  assert (Hothers : forall j r', j <> i -> nth_error df j = Some r' ->
                                 ~ height r' == h).
  { intros j r' Hj Hr'. apply float_sub_pos_not_eq.
    apply Qle_lt_trans with (Qabs (float_sub (height r) h)).
    - apply Qabs_nonneg.
    - exact (Hstrict j r' Hj Hr'). }
  destruct (Qeq_bool (height r) h) eqn:E.
  - apply Qeq_bool_eq in E.
    destruct (nth_error_split df i Hr) as (before & after & -> & Hlen).
    unfold get_cfs_for_height.
    rewrite (select_height_first h before r after); [reflexivity| |exact E].
    intros r' Hin. destruct (In_nth_error _ _ Hin) as (j & Hj).
    assert (Hlt : (j < length before)%nat)
      by (apply nth_error_Some; congruence).
    apply (Hothers j r'); [lia|].
    rewrite nth_error_app1; [exact Hj|exact Hlt].
  - apply Qeq_bool_neq in E.
    assert (Hne : df <> []) by (intros ->; destruct i; discriminate Hr).
    assert (Hno : forall r', In r' df -> ~ height r' == h).
    { intros r' Hin. destruct (In_nth_error _ _ Hin) as (j & Hj).
      destruct (Nat.eq_dec j i) as [->|Hji].
      - rewrite Hr in Hj. injection Hj as <-. exact E.
      - exact (Hothers j r' Hji Hj). }
    destruct (nearest_row h df Hne Hno) as (k & rk & Hk & _ & Hget & Hmin & _).
    destruct (Nat.eq_dec k i) as [->|Hki].
    + rewrite Hr in Hk. injection Hk as <-. exact Hget.
    + exfalso. pose proof (Hstrict k rk Hki Hk) as Hlt.
      pose proof (Hmin i r Hr) as Hle.
      apply (Qlt_irrefl (Qabs (float_sub (height r) h))).
      apply Qlt_le_trans with (Qabs (float_sub (height rk) h)); assumption.
Qed.

(** X4: a row whose distance to the requested height, as the program computes
    it (the absolute value of the binary64 difference), is strictly below
    that of every other row of the table is the row the lookup uses, and the
    flag tells whether that row has exactly the requested height. *)
Theorem strictly_nearest_row_wins (h : Q) (df : DataFrame) (i : nat)
    (r : row) :
  nth_error df i = Some r ->
  (forall j r', j <> i -> nth_error df j = Some r' ->
                Qabs (float_sub (height r) h) <
                Qabs (float_sub (height r') h)) ->
  get_cfs_for_height h df = Ok (cfs r, Qeq_bool (height r) h).
Proof.
  intros Hr Hstrict. apply (strictly_nearest_row h df i r Hr).
  intros j r' Hj Hr'. exact (Hstrict j r' Hj Hr').
Qed.

Lemma strictly_nearest_row_wins_witness :
  get_cfs_for_height 1.6 create_sample_csv =
    Ok (29000, Qeq_bool 1.50 1.6).
Proof.
  apply (strictly_nearest_row_wins 1.6 create_sample_csv 2
           {| height := 1.50; cfs := 29000 |}).
  - reflexivity.
  - intros j r' Hj Hr'.
    do 6 (destruct j as [|j];
          [try congruence; simpl in Hr'; injection Hr' as <-; reflexivity|]).
    destruct j; discriminate Hr'.
Defined.


(** ** The calculation *)

Lemma calculate_discharge_inv (now : string) (gates : Z) (hours h : Q)
    (df : DataFrame) (c : calculation) :
  calculate_discharge now gates hours h df = Ok c ->
  exists rate exact,
    get_cfs_for_height h df = Ok (rate, exact) /\
    c = {| timestamp := now; num_gates := gates; duration := hours;
           gate_height := h; cfs_value := rate;
           discharge := inject_Z gates * hours * rate / 384;
           exact_match := exact |}.
Proof.
  intros Hcalc.
  destruct (get_cfs_for_height h df) as [[rate exact]|e] eqn:Hget.
  - rewrite (calculate_discharge_found now gates hours h df rate exact Hget)
      in Hcalc.
    injection Hcalc as <-. exists rate, exact. split; reflexivity.
  - rewrite (calculate_discharge_raises now gates hours h df e Hget) in Hcalc.
    discriminate Hcalc.
Qed.

(** X7: at a fixed height and table the discharge is additive in the gate
    count and proportional to the duration: the entry for [g1 + g2] gates has
    the sum of the discharges for [g1] and for [g2] gates, and the entry for
    [k] times the duration has [k] times the discharge. *)
Theorem discharge_is_linear (now : string) (g1 g2 : Z) (hours k h : Q)
    (df : DataFrame) (c1 c2 : calculation) :
  calculate_discharge now g1 hours h df = Ok c1 ->
  calculate_discharge now g2 hours h df = Ok c2 ->
  (exists c, calculate_discharge now (g1 + g2) hours h df = Ok c /\
             discharge c == discharge c1 + discharge c2) /\
  (exists c, calculate_discharge now g1 (k * hours) h df = Ok c /\
             discharge c == k * discharge c1).
Proof.
  intros H1 H2.
  destruct (calculate_discharge_inv _ _ _ _ _ _ H1) as (rate & exact & Hget & ->).
  destruct (calculate_discharge_inv _ _ _ _ _ _ H2) as (rate' & exact' & Hget' & ->).
  rewrite Hget in Hget'. injection Hget' as <- <-.
  split; eexists; (split; [apply (calculate_discharge_found _ _ _ _ _ _ _ Hget)|]);
    cbn [discharge].
  - rewrite inject_Z_plus. field.
  - field.
Qed.

Lemma discharge_is_linear_witness :
  (exists c, calculate_discharge "2025-01-01 00:00:00" (2 + 3) 3 0.50
               create_sample_csv = Ok c /\
             discharge c == (54000 # 384) + (81000 # 384)) /\
  (exists c, calculate_discharge "2025-01-01 00:00:00" 2 (4 * 3) 0.50
               create_sample_csv = Ok c /\
             discharge c == 4 * (54000 # 384)).
Proof.
  apply (discharge_is_linear "2025-01-01 00:00:00" 2 3 3 4 0.50
           create_sample_csv
           {| timestamp := "2025-01-01 00:00:00"; num_gates := 2;
              duration := 3; gate_height := 0.50; cfs_value := 9000;
              discharge := 54000 # 384; exact_match := true |}
           {| timestamp := "2025-01-01 00:00:00"; num_gates := 3;
              duration := 3; gate_height := 0.50; cfs_value := 9000;
              discharge := 81000 # 384; exact_match := true |});
    reflexivity.
Defined.

(** X8: with a gate count and a duration that are not negative and a table
    whose rates are not negative, the discharge of the entry is not negative;
    with 16 gates for 24 hours it is the rate itself. *)
Theorem discharge_sign_and_unit (now : string) (gates : Z) (hours h : Q)
    (df : DataFrame) (c : calculation) :
  (forall r, In r df -> 0 <= cfs r) ->
  calculate_discharge now gates hours h df = Ok c ->
  ((0 <= gates)%Z -> 0 <= hours -> 0 <= discharge c) /\
  (gates = 16%Z -> hours == 24 -> discharge c == cfs_value c).
Proof.
  intros Hrates Hcalc.
  destruct (calculate_discharge_inv _ _ _ _ _ _ Hcalc)
    as (rate & exact & Hget & ->).
  cbn [discharge cfs_value]. split.
  - intros Hg Hh.
    assert (Hrate : 0 <= rate).
    { destruct (get_cfs_for_height_inv h df rate exact Hget)
        as [(_ & r & l & Hsel & ->)|(_ & _ & i & r & _ & Hr & ->)].
      - apply Hrates. apply (select_height_In h df r). rewrite Hsel.
        left. reflexivity.
      - apply Hrates. exact (nth_error_In _ _ Hr). }
    assert (Hgq : 0 <= inject_Z gates).
    { change 0 with (inject_Z 0). rewrite <- Zle_Qle. exact Hg. }
    apply Qle_shift_div_l; [reflexivity|].
    rewrite Qmult_0_l. apply Qmult_le_0_compat; [|exact Hrate].
    apply Qmult_le_0_compat; assumption.
  - intros -> Hh. rewrite Hh. field.
Qed.

Lemma discharge_sign_and_unit_witness :
  0 <= (11136000 # 384) /\ (11136000 # 384) == 29000.
Proof.
  assert (Hrates : forall r, In r create_sample_csv -> 0 <= cfs r).
  { intros r Hin. simpl in Hin.
    repeat (destruct Hin as [<-|Hin]; [intros H; discriminate H|]).
    destruct Hin. }
  destruct (discharge_sign_and_unit "2025-01-01 00:00:00" 16 24 1.75
              create_sample_csv
              {| timestamp := "2025-01-01 00:00:00"; num_gates := 16;
                 duration := 24; gate_height := 1.75; cfs_value := 29000;
                 discharge := 11136000 # 384; exact_match := false |}
              Hrates eq_refl) as [Hsign Hunit].
  split.
  - apply Hsign; [lia|lra].
  - apply Hunit; reflexivity.
Defined.

(** ** Runs of the application *)

(** The notices of the load are a warning or an error line made of text only,
    so they name no number. *)
Lemma load_notices_name_nothing (csv : csv_source) (p : page) :
  exists notices,
    load_discharge_data csv p =
      (Ok (loaded csv), {| session := session p; shown := shown p ++ notices |}) /\
    (forall e, In e notices ->
       exists msg, (e = st_warning msg \/ e = st_error msg) /\
                   forall x, names x msg = false).
Proof.
  destruct csv; simpl; run_script.
  - eexists. split; [reflexivity|].
    intros e [<-|[]]. eexists. split; [left; reflexivity|reflexivity].
  - eexists. split; [reflexivity|].
    intros e [<-|[]]. eexists. split; [right; reflexivity|reflexivity].
  - exists []. rewrite app_nil_r. destruct p. split; [reflexivity|].
    intros e [].
Qed.

(** The results section never stops the run and shows neither a warning nor
    an exception. *)
Lemma show_results_page (p : page) :
  exists results,
    show_results p =
      (Ok tt, {| session := session p; shown := shown p ++ results |}) /\
    (forall e, ~ In (st_exception e) results) /\
    (forall m, ~ In (st_warning m) results) /\
    (calculations (session p) <> [] ->
     In (st_metric "Total Calculations"
           [Len (length (calculations (session p)))]) results).
Proof.
  destruct (calculations (session p)) as [|c l] eqn:E.
  - eexists. split; [apply (show_results_empty p E)|].
    split; [|split].
    + intros e [H|[]]. discriminate H.
    + intros m [H|[]]. discriminate H.
    + intros H. congruence.
  - assert (Hne : calculations (session p) <> []) by congruence.
    destruct (show_results_nonempty p Hne) as [_ Hrun].
    rewrite E in Hrun. eexists. split; [exact Hrun|].
    split; [|split].
    + intros e Hin. simpl in Hin.
      repeat (destruct Hin as [H|Hin]; [discriminate H|]). exact Hin.
    + intros m Hin. simpl in Hin.
      repeat (destruct Hin as [H|Hin]; [discriminate H|]). exact Hin.
    + intros _. left. reflexivity.
Qed.

(** The body of the Calculate button when the calculation succeeds. *)
Lemma on_calculate_run (now : string) (ui : inputs) (df : DataFrame)
    (p : page) (c : calculation) :
  calculate_discharge now (in_num_gates ui) (in_duration ui)
    (in_gate_height ui) df = Ok c ->
  exists extra,
    on_calculate now ui df p =
      (Ok tt,
       {| session := accumulate c (session p);
          shown := shown p ++
            st_success [Lit "Calculation completed! Individual discharge: ";
                        Num (discharge c) ",.2f"] :: extra |}) /\
    ((exact_match c = true /\ extra = []) \/
     (exact_match c = false /\
      exists closest,
        extra = [st_warning [Lit "Using closest available height: ";
                             Num closest "";
                             Lit " (CFS: "; Num (cfs_value c) ","; Lit ")"]])).
Proof.
  intros Hcalc.
  destruct (calculate_discharge_inv _ _ _ _ _ _ Hcalc)
    as (rate & exact & Hget & Hc).
  unfold on_calculate, seq, lift. rewrite Hcalc. unfold modify, emit.
  cbn [session shown].
  destruct (get_cfs_for_height_inv _ _ _ _ Hget)
    as [(-> & _)|(-> & _ & i & r & Hidx & Hr & _)];
    rewrite Hc; cbn [exact_match negb cfs_value discharge].
  - eexists. split.
    + unfold ret. reflexivity.
    + left. split; reflexivity.
  - rewrite Hidx. unfold loc. rewrite Hr. cbn [session shown].
    rewrite <- app_assoc. eexists. split.
    + reflexivity.
    + right. split; [reflexivity|]. eexists. reflexivity.
Qed.

(** The page of a run in which Calculate was clicked and the calculation
    succeeded: the notices of the load, the success line, the warning if any,
    then the results section. *)
Lemma rerun_calculate_page (now : string) (csv : csv_source) (ui : inputs)
    (s : session_state) (c : calculation) :
  clicked ui = Some CalculateButton ->
  calculate_discharge now (in_num_gates ui) (in_duration ui)
    (in_gate_height ui) (loaded csv) = Ok c ->
  exists notices extra results,
    snd (rerun now csv ui s) =
      notices ++
      st_success [Lit "Calculation completed! Individual discharge: ";
                  Num (discharge c) ",.2f"] :: extra ++ results /\
    (forall e, In e notices ->
       exists msg, (e = st_warning msg \/ e = st_error msg) /\
                   forall x, names x msg = false) /\
    ((exact_match c = true /\ extra = []) \/
     (exact_match c = false /\
      exists closest,
        extra = [st_warning [Lit "Using closest available height: ";
                             Num closest "";
                             Lit " (CFS: "; Num (cfs_value c) ","; Lit ")"]])) /\
    (forall e, ~ In (st_exception e) results) /\
    (forall m, ~ In (st_warning m) results) /\
    In (st_metric "Total Calculations"
          [Len (S (length (calculations s)))]) results.
Proof.
  intros Hclick Hcalc.
  destruct (load_notices_name_nothing csv {| session := s; shown := [] |})
    as (notices & Hload & Hnotices).
  destruct (on_calculate_run now ui (loaded csv)
              {| session := set_discharge_data (loaded csv) s;
                 shown := [] ++ notices |} c Hcalc)
    as (extra & Hrun & Hextra).
  match type of Hrun with _ = (_, ?p1) =>
    destruct (show_results_page p1) as (results & Hshow & Hexn & Hwarn & Hcount)
  end.
  exists notices, extra, results.
  split; [|split; [exact Hnotices|split; [exact Hextra|
           split; [exact Hexn|split; [exact Hwarn|]]]]].
  - unfold rerun, main, pressed. rewrite Hclick.
    unfold seq at 1. rewrite Hload. unfold seq at 1. unfold modify at 1.
    cbn [session shown].
    unfold seq at 1. rewrite Hrun.
    unfold seq at 1. unfold ret at 1.
    rewrite Hshow. cbn [snd shown session].
    rewrite <- app_assoc. reflexivity.
  - cbn [session] in Hcount.
    assert (Hlen : length (calculations
                     (accumulate c (set_discharge_data (loaded csv) s))) =
                   S (length (calculations s))).
    { unfold accumulate. simpl. rewrite length_app. simpl. lia. }
    rewrite Hlen in Hcount. apply Hcount, accumulate_nonempty.
Qed.

(** The page of a run without a click: the notices of the load, then the
    results section. *)
Lemma rerun_no_click_page (now : string) (csv : csv_source) (ui : inputs)
    (s : session_state) :
  clicked ui = None ->
  exists notices results,
    snd (rerun now csv ui s) = notices ++ results /\
    (forall e, In e notices ->
       exists msg, (e = st_warning msg \/ e = st_error msg) /\
                   forall x, names x msg = false) /\
    (forall e, ~ In (st_exception e) results) /\
    (forall m, ~ In (st_warning m) results).
Proof.
  intros Hclick.
  destruct (load_notices_name_nothing csv {| session := s; shown := [] |})
    as (notices & Hload & Hnotices).
  destruct (show_results_page
              {| session := set_discharge_data (loaded csv) s;
                 shown := [] ++ notices |})
    as (results & Hshow & Hexn & Hwarn & _).
  exists notices, results. split; [|auto].
  unfold rerun, main, pressed. rewrite Hclick.
  unfold seq at 1. rewrite Hload. unfold seq at 1. unfold modify at 1.
  cbn [session shown].
  unfold seq at 1. unfold ret at 1. unfold seq at 1. unfold ret at 1.
  rewrite Hshow. reflexivity.
Qed.

Lemma notice_is_no_exception (notices : list element) :
  (forall e, In e notices ->
     exists msg, (e = st_warning msg \/ e = st_error msg) /\
                 forall x, names x msg = false) ->
  forall e, ~ In (st_exception e) notices.
Proof.
  intros Hall e Hin. destruct (Hall _ Hin) as (msg & [H|H] & _); discriminate H.
Qed.

(** X9: in every run in which the load returns a table (see [csv_source]),
    whatever was clicked and however the run ends afterwards, the table loaded
    is stored in the session; such a run without a click leaves the entries
    and the total as they were and shows no exception. *)
Theorem run_without_click_keeps_accumulator :
  (forall now csv ui s,
      discharge_data (fst (rerun now csv ui s)) = Some (loaded csv)) /\
  (forall now csv ui s,
      clicked ui = None ->
      calculations (fst (rerun now csv ui s)) = calculations s /\
      total_discharge (fst (rerun now csv ui s)) = total_discharge s /\
      forall e, ~ In (st_exception e) (snd (rerun now csv ui s))).
Proof.
  split.
  - intros now csv ui s. rewrite rerun_session.
    destruct (clicked ui) as [[|]|]; [|reflexivity|reflexivity].
    destruct (calculate_discharge _ _ _ _ _); reflexivity.
  - intros now csv ui s Hclick. rewrite rerun_session, Hclick.
    split; [reflexivity|]. split; [reflexivity|].
    destruct (rerun_no_click_page now csv ui s Hclick)
      as (notices & results & -> & Hnotices & Hexn & _).
    intros e Hin. apply in_app_or in Hin. destruct Hin as [Hin|Hin].
    + exact (notice_is_no_exception notices Hnotices e Hin).
    + exact (Hexn e Hin).
Qed.

Lemma run_without_click_keeps_accumulator_witness :
  let ui := {| in_num_gates := 1; in_duration := 1.0; in_gate_height := 1.0;
               clicked := None |} in
  let s := initialize_session_state in
  calculations (fst (rerun "2025-01-01 00:00:00" NotFound ui s)) =
    calculations s /\
  total_discharge (fst (rerun "2025-01-01 00:00:00" NotFound ui s)) =
    total_discharge s /\
  forall e, ~ In (st_exception e) (snd (rerun "2025-01-01 00:00:00" NotFound ui s)).
Proof.
  intros ui s.
  apply (proj2 run_without_click_keeps_accumulator
           "2025-01-01 00:00:00"%string NotFound ui s).
  reflexivity.
Defined.

(** X10: a run in which Calculate is clicked on a table with at least one row
    appends exactly one entry after the entries held, which stay as they
    were, adds its discharge to the total, shows the new count in the results
    section and shows no exception. *)
Theorem calculate_appends_one_entry (now : string) (csv : csv_source)
    (ui : inputs) (s : session_state) :
  clicked ui = Some CalculateButton ->
  loaded csv <> [] ->
  exists c,
    calculate_discharge now (in_num_gates ui) (in_duration ui)
      (in_gate_height ui) (loaded csv) = Ok c /\
    calculations (fst (rerun now csv ui s)) = calculations s ++ [c] /\
    total_discharge (fst (rerun now csv ui s)) = total_discharge s + discharge c /\
    In (st_metric "Total Calculations" [Len (S (length (calculations s)))])
       (snd (rerun now csv ui s)) /\
    forall e, ~ In (st_exception e) (snd (rerun now csv ui s)).
Proof.
  intros Hclick Hne.
  destruct (get_cfs_for_height_total (in_gate_height ui) (loaded csv) Hne)
    as (rate & exact & Hget).
  pose proof (calculate_discharge_found now (in_num_gates ui) (in_duration ui)
                _ _ _ _ Hget) as Hcalc.
  eexists. split; [exact Hcalc|].
  rewrite (rerun_calculate now csv ui s _ Hclick Hcalc).
  split; [reflexivity|]. split; [reflexivity|].
  destruct (rerun_calculate_page now csv ui s _ Hclick Hcalc)
    as (notices & extra & results & -> & Hnotices & Hextra & Hexn & _ & Hcount).
  split.
  - apply in_or_app. right. right. apply in_or_app. right. exact Hcount.
  - intros e Hin. apply in_app_or in Hin. destruct Hin as [Hin|[Hin|Hin]].
    + exact (notice_is_no_exception notices Hnotices e Hin).
    + discriminate Hin.
    + apply in_app_or in Hin. destruct Hin as [Hin|Hin]; [|exact (Hexn e Hin)].
      destruct Hextra as [(_ & ->)|(_ & closest & ->)]; [destruct Hin|].
      destruct Hin as [Hin|[]]. discriminate Hin.
Qed.

Lemma calculate_appends_one_entry_witness :
  let ui := {| in_num_gates := 2; in_duration := 3; in_gate_height := 1.75;
               clicked := Some CalculateButton |} in
  let s := initialize_session_state in
  let now := "2025-01-01 00:00:00"%string in
  exists c,
    calculate_discharge now (in_num_gates ui) (in_duration ui)
      (in_gate_height ui) (loaded Unreadable) = Ok c /\
    calculations (fst (rerun now Unreadable ui s)) = calculations s ++ [c] /\
    total_discharge (fst (rerun now Unreadable ui s)) =
      total_discharge s + discharge c /\
    In (st_metric "Total Calculations" [Len (S (length (calculations s)))])
       (snd (rerun now Unreadable ui s)) /\
    forall e, ~ In (st_exception e) (snd (rerun now Unreadable ui s)).
Proof.
  intros ui s now.
  apply (calculate_appends_one_entry now Unreadable ui s).
  - reflexivity.
  - discriminate.
Defined.

Lemma empty_table_stops_calculation_witness :
  let ui := {| in_num_gates := 2; in_duration := 3; in_gate_height := 1.0;
               clicked := Some CalculateButton |} in
  let c := {| timestamp := "2025-01-01 00:00:00"; num_gates := 2;
              duration := 3; gate_height := 0.50; cfs_value := 9000;
              discharge := 140.625; exact_match := true |} in
  let s := accumulate c initialize_session_state in
  let now := "2025-01-01 00:05:00"%string in
  (exists e, get_cfs_for_height (in_gate_height ui) [] = Raise e) /\
  (exists e,
     calculate_discharge now (in_num_gates ui) (in_duration ui)
       (in_gate_height ui) [] = Raise e /\
     snd (rerun now (Contents []) ui s) = [st_exception e]) /\
  calculations (fst (rerun now (Contents []) ui s)) = calculations s /\
  total_discharge (fst (rerun now (Contents []) ui s)) = total_discharge s.
Proof.
  intros ui c s now.
  apply (empty_table_stops_calculation now ui s). reflexivity.
Defined.

Lemma loaded_empty (csv : csv_source) : loaded csv = [] -> csv = Contents [].
Proof. destruct csv; simpl; intros H; [discriminate H|discriminate H|congruence]. Qed.

(** X12: in a run in which the load returns a table with the two numeric
    columns (see [csv_source]), the only exception ever shown is the
    [ValueError] of a Calculate click on a file that was read and has no rows;
    no click and no widget value stops such a run otherwise. *)
Theorem exception_only_on_empty_table (now : string) (csv : csv_source)
    (ui : inputs) (s : session_state) (e : exn) :
  In (st_exception e) (snd (rerun now csv ui s)) ->
  clicked ui = Some CalculateButton /\
  csv = Contents [] /\
  e = ValueError "attempt to get argmin of an empty sequence".
Proof.
  intros Hin. destruct (clicked ui) as [[|]|] eqn:Hclick.
  - destruct (calculate_discharge now (in_num_gates ui) (in_duration ui)
                (in_gate_height ui) (loaded csv)) as [c|e'] eqn:Hcalc.
    + exfalso.
      destruct (rerun_calculate_page now csv ui s c Hclick Hcalc)
        as (notices & extra & results & Hpage & Hnotices & Hextra & Hexn & _).
      rewrite Hpage in Hin.
      apply in_app_or in Hin. destruct Hin as [Hin|[Hin|Hin]].
      * exact (notice_is_no_exception notices Hnotices e Hin).
      * discriminate Hin.
      * apply in_app_or in Hin. destruct Hin as [Hin|Hin]; [|exact (Hexn e Hin)].
        destruct Hextra as [(_ & ->)|(_ & closest & ->)]; [destruct Hin|].
        destruct Hin as [Hin|[]]. discriminate Hin.
    + assert (Hempty : loaded csv = []).
      { destruct (loaded csv) as [|r df] eqn:E; [reflexivity|]. exfalso.
        destruct (get_cfs_for_height_total (in_gate_height ui) (r :: df))
          as (rate & exact & Hok); [discriminate|].
        rewrite (calculate_discharge_found now _ _ _ _ _ _ Hok) in Hcalc.
        discriminate Hcalc. }
      apply loaded_empty in Hempty. subst csv.
      split; [reflexivity|]. split; [reflexivity|].
      unfold rerun, main, pressed in Hin. rewrite Hclick in Hin.
      simpl in Hin. destruct Hin as [Hin|[]]. injection Hin as <-. reflexivity.
  - exfalso.
    destruct (rerun_clear now csv ui s Hclick) as (notices & hint & Hrun & Hnot).
    rewrite Hrun in Hin. cbn [snd] in Hin.
    apply in_app_or in Hin. destruct Hin as [Hin|Hin].
    + destruct (Hnot _ Hin) as (msg & [H|H]); discriminate H.
    + simpl in Hin. destruct Hin as [H|[H|[]]]; discriminate H.
  - exfalso.
    destruct (rerun_no_click_page now csv ui s Hclick)
      as (notices & results & Hpage & Hnotices & Hexn & _).
    rewrite Hpage in Hin. apply in_app_or in Hin. destruct Hin as [Hin|Hin].
    + exact (notice_is_no_exception notices Hnotices e Hin).
    + exact (Hexn e Hin).
Qed.

Lemma exception_only_on_empty_table_witness :
  let ui := {| in_num_gates := 2; in_duration := 3; in_gate_height := 1.0;
               clicked := Some CalculateButton |} in
  clicked ui = Some CalculateButton /\
  Contents [] = Contents [] /\
  ValueError "attempt to get argmin of an empty sequence" =
    ValueError "attempt to get argmin of an empty sequence".
Proof.
  intros ui.
  apply (exception_only_on_empty_table "2025-01-01 00:00:00" (Contents []) ui
           initialize_session_state
           (ValueError "attempt to get argmin of an empty sequence")).
  left. reflexivity.
Defined.

(** X13: when Calculate is clicked with a height that some row of the table
    has, the page shows no closest-height warning: every warning on it names
    no number (it can only be the notice about the missing file). *)
Theorem exact_match_shows_no_closest_warning (now : string)
    (csv : csv_source) (ui : inputs) (s : session_state) (r : row) :
  clicked ui = Some CalculateButton ->
  In r (loaded csv) ->
  height r == in_gate_height ui ->
  forall msg, In (st_warning msg) (snd (rerun now csv ui s)) ->
              forall x, names x msg = false.
Proof.
  intros Hclick Hr Heq msg Hin.
  assert (Hne : loaded csv <> []) by (intros E; rewrite E in Hr; exact Hr).
  destruct (get_cfs_for_height_total (in_gate_height ui) (loaded csv) Hne)
    as (rate & exact & Hget).
  assert (Hexact : exact = true).
  { destruct (get_cfs_for_height_inv _ _ _ _ Hget)
      as [(-> & _)|(_ & Hsel & _)]; [reflexivity|].
    exfalso. exact (select_height_nil _ _ Hsel r Hr Heq). }
  subst exact.
  pose proof (calculate_discharge_found now (in_num_gates ui) (in_duration ui)
                _ _ _ _ Hget) as Hcalc.
  destruct (rerun_calculate_page now csv ui s _ Hclick Hcalc)
    as (notices & extra & results & Hpage & Hnotices & Hextra & _ & Hwarn & _).
  rewrite Hpage in Hin.
  apply in_app_or in Hin. destruct Hin as [Hin|[Hin|Hin]].
  - destruct (Hnotices _ Hin) as (msg' & [H|H] & Hnames);
      [injection H as ->; exact Hnames|discriminate H].
  - discriminate Hin.
  - apply in_app_or in Hin. destruct Hin as [Hin|Hin].
    + destruct Hextra as [(_ & ->)|(Hfalse & _)]; [destruct Hin|].
      discriminate Hfalse.
    + exfalso. exact (Hwarn msg Hin).
Qed.

Lemma exact_match_shows_no_closest_warning_witness :
  names 1.5 [Lit "CSV file '"; Lit csv_filename;
             Lit "' not found. Creating sample file..."] = false.
Proof.
  apply (exact_match_shows_no_closest_warning "2025-01-01 00:00:00" NotFound
           {| in_num_gates := 2; in_duration := 3; in_gate_height := 1.5;
              clicked := Some CalculateButton |}
           initialize_session_state {| height := 1.50; cfs := 29000 |}).
  - reflexivity.
  - simpl. right. right. left. reflexivity.
  - reflexivity.
  - left. reflexivity.
Defined.

(** ** Sessions of the application *)

(** X15: after every sequence of runs from a fresh session, every entry held
    satisfies the formula on its own fields: its discharge is its gate count
    times its duration times its rate, over 384. *)
Theorem stored_entries_satisfy_formula (evs : list event) :
  Forall (fun c => discharge c ==
                   inject_Z (num_gates c) * duration c * cfs_value c / 384)
         (calculations (play evs initialize_session_state)).
Proof.
  assert (Hinv : forall evs s,
             Forall (fun c => discharge c ==
                       inject_Z (num_gates c) * duration c * cfs_value c / 384)
                    (calculations s) ->
             Forall (fun c => discharge c ==
                       inject_Z (num_gates c) * duration c * cfs_value c / 384)
                    (calculations (play evs s))).
  { clear evs. induction evs as [|[[now csv] ui] evs IH]; intros s Hs;
      [exact Hs|].
    simpl. apply IH. cbn [fst snd]. rewrite rerun_session.
    destruct (clicked ui) as [[|]|]; [|constructor|exact Hs].
    destruct (calculate_discharge now (in_num_gates ui) (in_duration ui)
                (in_gate_height ui) (loaded csv)) as [c|e] eqn:Hcalc;
      [|exact Hs].
    unfold accumulate. cbn [calculations add_to_total append_calculation
                              set_discharge_data].
    apply Forall_app. split; [exact Hs|]. constructor; [|constructor].
    destruct (calculate_discharge_inv _ _ _ _ _ _ Hcalc)
      as (rate & exact & _ & ->).
    reflexivity. }
  apply Hinv. constructor.
Qed.

(** On the built-in table every height resolves to one of its six rates. *)
Lemma sample_heights_resolve (h : Q) :
  exists rate exact,
    get_cfs_for_height h create_sample_csv = Ok (rate, exact) /\
    In rate [9000; 18000; 29000; 38000; 49000; 58000].
Proof.
  destruct (get_cfs_for_height_total h create_sample_csv)
    as (rate & exact & Hget); [discriminate|].
  exists rate, exact. split; [exact Hget|].
  assert (Hin : exists r, In r create_sample_csv /\ rate = cfs r).
  { destruct (get_cfs_for_height_inv _ _ _ _ Hget)
      as [(_ & r & l & Hsel & ->)|(_ & _ & i & r & _ & Hr & ->)].
    - exists r. split; [|reflexivity].
      apply (select_height_In h create_sample_csv r). rewrite Hsel.
      left. reflexivity.
    - exists r. split; [exact (nth_error_In _ _ Hr)|reflexivity]. }
  destruct Hin as (r & Hin & ->). simpl in Hin. simpl.
  repeat (destruct Hin as [<-|Hin]; [auto 10|]). destruct Hin.
Qed.

(** X16: the load with its file accesses.  When the file is missing or reading
    it fails, and the sample file can be written, the load returns the
    six-row built-in table, on which every requested height resolves to one
    of the six rates; when the sample file cannot be written, the load raises
    the exception of the write, after the notices, and returns nothing.
    Whenever the load returns, it does what [load_discharge_data] does on the
    corresponding [csv_source], and the table it returns is empty only when
    the file was read and holds no rows. *)
Theorem missing_file_falls_back_to_sample (file : disk_file) (writable : bool)
    (p : page) :
  ((forall held, file <> FileHolds held) ->
   (writable = true ->
    fst (load_from_disk file writable p) = Ok create_sample_csv /\
    forall h, exists rate exact,
      get_cfs_for_height h create_sample_csv = Ok (rate, exact) /\
      In rate [9000; 18000; 29000; 38000; 49000; 58000]) /\
   (writable = false ->
    fst (load_from_disk file writable p) =
      Raise (OSError "cannot write discharge_list.csv"))) /\
  (forall df,
      fst (load_from_disk file writable p) = Ok df ->
      load_from_disk file writable p =
        load_discharge_data (found_on_disk file) p /\
      df = loaded (found_on_disk file) /\
      (df = [] -> file = FileHolds [])).
Proof.
  split.
  - intros Hnot. split.
    + intros ->. split; [|exact sample_heights_resolve].
      destruct file as [|e|held]; [reflexivity|reflexivity|].
      exfalso. exact (Hnot held eq_refl).
    + intros ->.
      destruct file as [|e|held]; [reflexivity|reflexivity|].
      exfalso. exact (Hnot held eq_refl).
  - intros df Hload.
    destruct file as [|e|held]; destruct writable;
      try discriminate Hload;
      cbn in Hload; injection Hload as <-;
      (split; [reflexivity|]); (split; [reflexivity|]);
      intros Hnil; try discriminate Hnil.
    + cbn in Hnil. rewrite Hnil. reflexivity.
    + cbn in Hnil. rewrite Hnil. reflexivity.
Qed.

Lemma missing_file_falls_back_to_sample_witness :
  let p := {| session := initialize_session_state; shown := [] |} in
  (fst (load_from_disk FileMissing true p) = Ok create_sample_csv /\
   forall h, exists rate exact,
     get_cfs_for_height h create_sample_csv = Ok (rate, exact) /\
     In rate [9000; 18000; 29000; 38000; 49000; 58000]) /\
  fst (load_from_disk (FileBroken (OSError "is a directory")) false p) =
    Raise (OSError "cannot write discharge_list.csv").
Proof.
  intros p. split.
  - apply (proj1 (proj1 (missing_file_falls_back_to_sample FileMissing true p)
                    ltac:(discriminate))).
    reflexivity.
  - apply (proj2 (proj1 (missing_file_falls_back_to_sample
                           (FileBroken (OSError "is a directory")) false p)
                    ltac:(discriminate))).
    reflexivity.
Defined.

(** * Further properties of the older variants *)

Lemma Qsum_app (l1 l2 : list Q) : Qsum (l1 ++ l2) == Qsum l1 + Qsum l2.
Proof.
  induction l1 as [|x l1 IH]; simpl.
  - ring.
  - rewrite IH. ring.
Qed.

Lemma success_values_app (p1 p2 : list element) :
  success_values (p1 ++ p2) = success_values p1 ++ success_values p2.
Proof. unfold success_values. apply flat_map_app. Qed.

Lemma completed_app (es1 es2 : list OldSession.entry) :
  OldSession.completed (es1 ++ es2) =
  OldSession.completed es1 ++ OldSession.completed es2.
Proof.
  induction es1 as [|e es1 IH]; [reflexivity|].
  simpl. destruct (OldSession.complete e); simpl; rewrite IH; reflexivity.
Qed.

Lemma shown_spd_value (text : message) (label : string) (n : nat)
    (colon : string) (spd : Q) (spec : string) :
  Qsum (success_values
          [st_text text; st_success [Lit label; Len n; Lit colon; Num spd spec]])
  == spd.
Proof. unfold success_values, Qsum. simpl. ring. Qed.

(** The loop never stops, keeps one entry per entry, and the sum computed
    from the entries it leaves, started at [acc], is [acc] plus the sum of the
    SPD values of its success lines. *)
Lemma loop_total (widgets : nat -> Old.calc) (df : DataFrame)
    (calcs : list OldSession.entry) :
  forall (i : nat) (acc : Q),
  exists es page t,
    OldSession.loop i widgets calcs df = Ok (es, page) /\
    length es = length calcs /\
    (forall m, ~ In (st_warning m) page) /\
    Old.sum_spd acc (OldSession.completed es) df = Ok t /\
    t == acc + Qsum (success_values page).
Proof.
  induction calcs as [|e calcs IH]; intros i acc.
  - exists [], [], acc. repeat split; try reflexivity.
    + intros m [].
    + simpl. ring.
  - cbn [OldSession.loop].
    unfold OldSession.show_one, OldSession.complete, OldSession.set_fields.
    cbn [OldSession.num_of_gates OldSession.duration OldSession.gate_height].
    unfold Old.show_calculation, Old.lookup, Old.spd_formula.
    cbn [Old.num_of_gates Old.duration Old.gate_height].
    destruct (select_height (Old.gate_height (widgets i)) df) as [|r l] eqn:Hsel.
    + destruct (IH (S i) acc) as (es & page & t & Hloop & Hlen & Hwarn & Hsum & Ht).
      cbn [fst snd bind truediv]. rewrite Hloop. cbn [bind fst snd].
      eexists. eexists. exists t. split; [reflexivity|].
      split; [simpl; rewrite Hlen; reflexivity|]. split; [|split].
      * intros m [H|[H|Hin]]; [discriminate H|discriminate H|exact (Hwarn m Hin)].
      * cbn [OldSession.completed OldSession.complete OldSession.num_of_gates
               OldSession.duration OldSession.gate_height Old.sum_spd
               Old.gate_height].
        rewrite Hsel. exact Hsum.
      * cbn [snd]. rewrite success_values_app, Qsum_app, shown_spd_value.
        rewrite Ht. field.
    + destruct (IH (S i)
                  (acc + inject_Z (Old.num_of_gates (widgets i)) *
                         Old.duration (widgets i) * cfs r / 384))
        as (es & page & t & Hloop & Hlen & Hwarn & Hsum & Ht).
      cbn [fst snd bind truediv]. rewrite Hloop. cbn [bind fst snd].
      eexists. eexists. exists t. split; [reflexivity|].
      split; [simpl; rewrite Hlen; reflexivity|]. split; [|split].
      * intros m [H|[H|Hin]]; [discriminate H|discriminate H|exact (Hwarn m Hin)].
      * cbn [OldSession.completed OldSession.complete OldSession.num_of_gates
               OldSession.duration OldSession.gate_height Old.sum_spd
               Old.gate_height Old.num_of_gates Old.duration].
        rewrite Hsel. unfold Old.spd_formula. exact Hsum.
      * cbn [snd]. rewrite success_values_app, Qsum_app, shown_spd_value.
        rewrite Ht. field.
Qed.

(** What one run of the old variant returns. *)
Lemma old_run_result (widgets : nat -> Old.calc) (add_clicked : bool)
    (calcs : list OldSession.entry) (df : DataFrame) :
  exists calcs' page total,
    OldSession.run widgets add_clicked calcs df = Ok (calcs', page, total) /\
    length calcs' =
      (if (length calcs <? 16)%nat && add_clicked
       then S (length calcs) else length calcs) /\
    (forall m, ~ In (st_warning m) page) /\
    total == Qsum (success_values page).
Proof.
  destruct (loop_total widgets df calcs 0%nat 0)
    as (es & page & t & Hloop & Hlen & Hwarn & Hsum & Ht).
  unfold OldSession.run. rewrite Hloop. cbn [bind fst snd]. rewrite Hlen.
  assert (Hcompleted :
            OldSession.completed
              (if (length calcs <? 16)%nat && add_clicked
               then OldSession.add_calculation es else es) =
            OldSession.completed es).
  { destruct ((length calcs <? 16)%nat && add_clicked); [|reflexivity].
    unfold OldSession.add_calculation. rewrite completed_app. simpl.
    apply app_nil_r. }
  unfold Old.total_spd. rewrite Hcompleted, Hsum. cbn [bind].
  eexists. exists page, t. split; [reflexivity|]. split; [|split].
  - destruct ((length calcs <? 16)%nat && add_clicked); [|exact Hlen].
    unfold OldSession.add_calculation. rewrite length_app, Hlen. simpl. lia.
  - exact Hwarn.
  - rewrite Ht. ring.
Qed.

(** X17: in every run of the old variant the total of the header equals the
    sum of the SPD values shown in the success lines of that run, also when a
    height has no row (its line shows 0 and the total leaves it out) and when
    the Add button has just appended a blank calculation; the warning asking
    for all values is never shown. *)
Theorem old_total_is_sum_of_shown (widgets : nat -> Old.calc)
    (add_clicked : bool) (calcs : list OldSession.entry) (df : DataFrame) :
  exists calcs' page total,
    OldSession.run widgets add_clicked calcs df = Ok (calcs', page, total) /\
    total == Qsum (success_values page) /\
    forall m, ~ In (st_warning m) page.
Proof.
  destruct (old_run_result widgets add_clicked calcs df)
    as (calcs' & page & total & Hrun & _ & Hwarn & Htotal).
  exists calcs', page, total. auto.
Qed.



(** X19: for a table file whose second column is [cfs] (the columns in the
    order height, cfs) and a height that some row has, the three variants
    agree: the application returns an exact entry, and the old variant and
    the copy find the same rate and show the same discharge. *)
Theorem variants_agree_on_exact_rows (now : string) (gates : Z) (hours h : Q)
    (df : DataFrame) (i : nat) (r : row) :
  In r df ->
  height r == h ->
  exists c shown_old shown_copy,
    calculate_discharge now gates hours h df = Ok c /\
    exact_match c = true /\
    Old.show_calculation i
      {| Old.num_of_gates := gates; Old.duration := hours;
         Old.gate_height := h |} df =
      Ok (cfs_value c, discharge c, shown_old) /\
    Copy.show_entry gates hours h df =
      Ok (cfs_value c, discharge c, shown_copy).
Proof.
  intros Hin Heq.
  destruct (select_height h df) as [|r0 l] eqn:Hsel.
  - exfalso. exact (select_height_nil h df Hsel r Hin Heq).
  - assert (Hget : get_cfs_for_height h df = Ok (cfs r0, true))
      by (unfold get_cfs_for_height; rewrite Hsel; reflexivity).
    eexists. eexists. eexists.
    split; [apply (calculate_discharge_found _ _ _ _ _ _ _ Hget)|].
    split; [reflexivity|].
    unfold Old.show_calculation, Copy.show_entry, Old.lookup, Copy.lookup.
    cbn [Old.num_of_gates Old.duration Old.gate_height].
    rewrite Hsel. split; reflexivity.
Qed.

Lemma variants_agree_on_exact_rows_witness :
  exists c shown_old shown_copy,
    calculate_discharge "2025-01-01 00:00:00" 2 3 1.5 create_sample_csv = Ok c /\
    exact_match c = true /\
    Old.show_calculation 0
      {| Old.num_of_gates := 2; Old.duration := 3;
         Old.gate_height := 1.5 |} create_sample_csv =
      Ok (cfs_value c, discharge c, shown_old) /\
    Copy.show_entry 2 3 1.5 create_sample_csv =
      Ok (cfs_value c, discharge c, shown_copy).
Proof.
  apply (variants_agree_on_exact_rows "2025-01-01 00:00:00" 2 3 1.5
           create_sample_csv 0 {| height := 1.50; cfs := 29000 |}).
  - simpl. right. right. left. reflexivity.
  - reflexivity.
Defined.

(** * Further properties of the lookup and of sessions *)

(** X14: entries leave the session only through Clear: a run in which Clear
    was not clicked keeps the entries held, unchanged and in order, and adds
    at most one entry after them. *)
Theorem entries_are_append_only (now : string) (csv : csv_source)
    (ui : inputs) (s : session_state) :
  clicked ui <> Some ClearButton ->
  exists added,
    calculations (fst (rerun now csv ui s)) = calculations s ++ added /\
    (length added <= 1)%nat /\
    (clicked ui = None -> added = []).
Proof.
  intros Hclick. rewrite rerun_session.
  destruct (clicked ui) as [[|]|]; [|congruence|].
  - destruct (calculate_discharge _ _ _ _ _) as [c|e].
    + exists [c]. split; [reflexivity|]. split; [simpl; lia|discriminate].
    + exists []. split; [symmetry; apply app_nil_r|].
      split; [simpl; lia|reflexivity].
  - exists []. split; [symmetry; apply app_nil_r|].
    split; [simpl; lia|reflexivity].
Qed.

Lemma entries_are_append_only_witness :
  let ui := {| in_num_gates := 2; in_duration := 3; in_gate_height := 1.75;
               clicked := Some CalculateButton |} in
  let c := {| timestamp := "2025-01-01 00:00:00"; num_gates := 2;
              duration := 3; gate_height := 0.50; cfs_value := 9000;
              discharge := 140.625; exact_match := true |} in
  let s := accumulate c initialize_session_state in
  exists added,
    calculations (fst (rerun "2025-01-01 00:05:00" NotFound ui s)) =
      calculations s ++ added /\
    (length added <= 1)%nat /\
    (clicked ui = None -> added = []).
Proof.
  intros ui c s.
  apply (entries_are_append_only "2025-01-01 00:05:00" NotFound ui s).
  discriminate.
Defined.

